(** * Isolation governance of the SOC agent: a shallow embedding

    The development follows the Python sources:
    - [GUARDRAILS.py]: lockout file, rate limits, confidence rules,
      mass-isolation exception and confirmation;
    - [database/db_manager.py]: audit log and isolation events;
    - [notifications/alert_manager.py]: e-mail alerts;
    - [_main.py]: the per-threat response loop.

    Conventions of the embedding.
    - A Python [str] is a [string] whose characters are read as the code
      points U+0000..U+00FF; [lower] and [strip] follow CPython on that
      range.
    - A function that can raise returns a [result]; code that touches the
      lock file or the database threads a [World].
    - Timestamps are integers (microseconds since the epoch) instead of
      ISO-8601 text; the SQL comparison [timestamp >= cutoff] becomes [<=?]
      on them. Every function that reads the clock takes the reading [now].
    - Console output and [time.sleep] are not modelled. *)

From stdpp Require Import base option list gmap strings pretty.
From Stdlib Require Import ZArith Lia Ascii.

Local Open Scope string_scope.

(** ** Python strings *)

Module PyStr.

Definition code (c : ascii) : nat := nat_of_ascii c.

(** [str.lower] on one code point below 256: A..Z and the Latin-1 capitals
    U+00C0..U+00DE (without the multiplication sign U+00D7) move by 32. *)
Definition char_lower (c : ascii) : ascii :=
  let n := code c in
  if (((65 <=? n) && (n <=? 90))
      || ((192 <=? n) && (n <=? 222) && negb (n =? 215)))%nat
  then ascii_of_nat (n + 32) else c.

Fixpoint lower (s : string) : string :=
  match s with
  | EmptyString => EmptyString
  | String c s' => String (char_lower c) (lower s')
  end.

(** [str.isspace] on one code point below 256. *)
Definition isspace (c : ascii) : bool :=
  let n := code c in
  (((9 <=? n) && (n <=? 13)) || ((28 <=? n) && (n <=? 32))
   || (n =? 133) || (n =? 160))%nat.

Fixpoint lstrip (s : string) : string :=
  match s with
  | EmptyString => EmptyString
  | String c s' => if isspace c then lstrip s' else s
  end.

Fixpoint rstrip (s : string) : string :=
  match s with
  | EmptyString => EmptyString
  | String c s' =>
      match rstrip s' with
      | EmptyString => if isspace c then EmptyString else String c EmptyString
      | r => String c r
      end
  end.

Definition strip (s : string) : string := rstrip (lstrip s).

Definition startswith (p s : string) : bool := String.prefix p s.

(** Truth value of a string: empty is false. *)
Definition truthy (s : string) : bool := negb (String.eqb s "").

End PyStr.

(** ** Exceptions *)

Inductive exn : Type :=
| TypeError
| KeyError
| ValueError
| AttributeError
| OSError.

Inductive result (A : Type) : Type :=
| Ok (a : A)
| Raise (e : exn).

Arguments Ok {A} a.
Arguments Raise {A} e.

(** An actual argument of a call: supplied or left out. A parameter declared
    without a default must be supplied, otherwise the call raises
    [TypeError] before the body runs. *)
Inductive arg (A : Type) : Type :=
| Given (a : A)
| Omitted.

Arguments Given {A} a.
Arguments Omitted {A}.

Definition required {A} (a : arg A) : result A :=
  match a with
  | Given x => Ok x
  | Omitted => Raise TypeError
  end.

Definition with_default {A} (d : A) (a : arg A) : A :=
  match a with
  | Given x => x
  | Omitted => d
  end.

(** ** GUARDRAILS.py: constants *)

Module Limits.
Definition per_5_minutes : Z := 5.
Definition per_hour : Z := 10.
Definition per_day : Z := 15.
Definition batch_size_max : Z := 50.
Definition high_threat_count_max : Z := 10.
End Limits.

Definition CONFIDENCE_RULES : gmap string string :=
  <["critical" := "auto_isolate"]>
  (<["high" := "require_confirmation"]>
  (<["medium" := "require_confirmation"]>
  (<["low" := "no_auto_isolate"]> ∅))).

(** [d.get(k, dflt)] *)
Definition dict_get (d : gmap string string) (k dflt : string) : string :=
  default dflt (d !! k).

Definition confidence_rule (confidence : string) : string :=
  let confidence_lower := PyStr.lower confidence in
  dict_get CONFIDENCE_RULES confidence_lower "require_confirmation".

Definition should_auto_isolate (confidence : string) : bool :=
  String.eqb (confidence_rule confidence) "auto_isolate".

Definition requires_confirmation (confidence : string) : bool :=
  String.eqb (confidence_rule confidence) "require_confirmation".

(** The three-way branch of the response loop in [_main.py]:
    [if can_auto_isolate: ... elif should_ask_confirmation: ... else: ...]. *)
Inductive Directive : Type :=
| AutoIsolate
| RequireConfirmation
| Skip.

Definition classify (confidence : string) : Directive :=
  let should_ask_confirmation := requires_confirmation confidence in
  let can_auto_isolate := should_auto_isolate confidence in
  if can_auto_isolate then AutoIsolate
  else if should_ask_confirmation then RequireConfirmation
  else Skip.

(** ** The persisted state *)

(** A row of table [isolation_events]. *)
Record IsolationEvent : Type := {
  ie_timestamp : Z;
  ie_user : string;
  ie_machine_id : string;
  ie_device_name : option string;
  ie_threat_id : string;
  ie_threat_title : string;
  ie_action_result : string;
  ie_approved_by : option string;
  ie_user_decision : option string;
  ie_alert_sent : bool
}.

(** A row of table [audit_log]; [al_details] is the dictionary that
    [log_action] serialises, [None] when it is empty or absent. *)
Record AuditRecord : Type := {
  al_timestamp : Z;
  al_action_type : string;
  al_user : string;
  al_device_name : option string;
  al_success : bool;
  al_details : option (list (string * string))
}.

(** What [create_lockout] writes into the lock file: the text is fixed up
    to the time and the reason. *)
Record LockFile : Type := {
  lock_time : Z;
  lock_reason : string
}.

(** The lock file (absent or present), whether its directory accepts a
    write, and the two tables, oldest row first. *)
Record World : Type := {
  lock_file : option LockFile;
  lock_writable : bool;
  audit_log : list AuditRecord;
  isolation_events : list IsolationEvent
}.

(** ** Computations that may raise and that update a state *)

Definition ST (S A : Type) : Type := S -> result A * S.

#[export] Instance result_ret : MRet result := fun A a => Ok a.
#[export] Instance result_bind : MBind result := fun A B f r =>
  match r with
  | Ok a => f a
  | Raise e => Raise e
  end.

#[export] Instance ST_ret {S} : MRet (ST S) := fun A a s => (Ok a, s).
#[export] Instance ST_bind {S} : MBind (ST S) := fun A B f m s =>
  match m s with
  | (Ok a, s') => f a s'
  | (Raise e, s') => (Raise e, s')
  end.

(** A pure computation that may raise, run inside [ST]. *)
Definition lift {S A} (r : result A) : ST S A := fun s => (r, s).

(** [try: body except Exception as e: handler] *)
Definition try_except {S A} (body : ST S A) (handler : exn -> ST S A) : ST S A :=
  fun s =>
    match body s with
    | (Ok a, s') => (Ok a, s')
    | (Raise e, s') => handler e s'
    end.

(** Computations over the persisted state. *)
Abbreviation M := (ST World).

(** ** _keys.py: the e-mail settings read from the environment.
    The module defines no [ALERT_FROM_EMAIL]. *)
Record Keys : Type := {
  SMTP_USER : string;
  SMTP_PASSWORD : string;
  SOC_LEAD_EMAIL : string
}.

(** ** database/db_manager.py *)

Definition usec_per_minute : Z := 60000000.
Definition usec_per_hour : Z := 3600000000.

(** [log_action]: one more row in [audit_log]; returns its row id. *)
Definition log_action (now : Z) (action_type : string) (success : bool)
    (user : string) (device_name : option string)
    (details : list (string * string)) : M Z :=
  fun w =>
    let row := {| al_timestamp := now;
                  al_action_type := action_type;
                  al_user := user;
                  al_device_name := device_name;
                  al_success := success;
                  al_details := match details with
                                | [] => None
                                | _ => Some details
                                end |} in
    let record_id := Z.of_nat (S (length (audit_log w))) in
    (Ok record_id,
     {| lock_file := lock_file w;
        lock_writable := lock_writable w;
        audit_log := audit_log w ++ [row];
        isolation_events := isolation_events w |}).

Definition log_user_decision (now : Z) (device_name : option string)
    (threat_title decision threat_confidence : string) : M Z :=
  log_action now "user_decision" true "system" device_name
    [("threat_title", threat_title);
     ("decision", decision);
     ("threat_confidence", threat_confidence)].

(** [log_isolation_event]: one more row in [isolation_events]. *)
Definition log_isolation_event (now : Z) (machine_id : string)
    (device_name : option string) (threat_id threat_title : string)
    (action_result : string) (user : string) (approved_by : option string)
    (user_decision : option string) (alert_sent : bool) : M Z :=
  fun w =>
    let row := {| ie_timestamp := now;
                  ie_user := user;
                  ie_machine_id := machine_id;
                  ie_device_name := device_name;
                  ie_threat_id := threat_id;
                  ie_threat_title := threat_title;
                  ie_action_result := action_result;
                  ie_approved_by := approved_by;
                  ie_user_decision := user_decision;
                  ie_alert_sent := alert_sent |} in
    let record_id := Z.of_nat (S (length (isolation_events w))) in
    (Ok record_id,
     {| lock_file := lock_file w;
        lock_writable := lock_writable w;
        audit_log := audit_log w;
        isolation_events := isolation_events w ++ [row] |}).

(** The [WHERE] clause of [count_isolations_in_window]; [user = None] is
    the query without the user condition. *)
Definition in_window (cutoff_time : Z) (user : option string)
    (e : IsolationEvent) : bool :=
  (cutoff_time <=? ie_timestamp e)%Z
  && match user with
     | Some u => String.eqb (ie_user e) u
     | None => true
     end
  && String.eqb (ie_action_result e) "success".

(** Truth value of an optional integer: [None] and [0] are false. *)
Definition truthy_int (n : option Z) : bool :=
  match n with
  | Some k => negb (k =? 0)%Z
  | None => false
  end.

Definition count_isolations_in_window (now : Z) (hours minutes : option Z)
    (user : option string) : M Z :=
  fun w =>
    let delta :=
      if truthy_int hours then Ok (default 0%Z hours * usec_per_hour)%Z
      else if truthy_int minutes then Ok (default 0%Z minutes * usec_per_minute)%Z
      else Raise ValueError in
    match delta with
    | Raise e => (Raise e, w)
    | Ok delta =>
        let cutoff_time := (now - delta)%Z in
        let user_filter :=
          match user with
          | Some u => if PyStr.truthy u then Some u else None
          | None => None
          end in
        let count :=
          Z.of_nat (length (filter (fun e => in_window cutoff_time user_filter e = true)
                                   (isolation_events w))) in
        (Ok count, w)
    end.

(** ** notifications/alert_manager.py *)

Section Alerts.

Variable keys : Keys.

(** The [try] block of [send_email_alert]: building the message reads
    [_keys.ALERT_FROM_EMAIL], which [_keys.py] does not define, so the
    block raises before anything is sent. *)
Definition build_and_send (subject body to_email : string) : result unit :=
  Raise AttributeError.

(** [send_email_alert(subject, body, to_email)]: three parameters, none
    with a default. *)
Definition send_email_alert (subject body to_email : arg string) : result bool :=
  subject ← required subject;
  body ← required body;
  to_email ← required to_email;
  let to_email :=
    if negb (PyStr.truthy to_email) then SOC_LEAD_EMAIL keys else to_email in
  if negb (PyStr.truthy (SMTP_USER keys)) || negb (PyStr.truthy (SMTP_PASSWORD keys))
  then Ok false
  else if negb (PyStr.truthy to_email) then Ok false
  else match build_and_send subject body to_email with
       | Ok _ => Ok true
       | Raise _ => Ok false
       end.

(** The alert functions build a subject and a body (kept here as their
    fixed headings) and end with [send_email_alert(subject, body)]. *)

(** [alert_rate_limit_exceeded(isolation_count, time_window, device_name)]:
    three parameters, none with a default. *)
Definition alert_rate_limit_exceeded (isolation_count : arg Z)
    (time_window : arg string) (device_name : arg (option string)) : result bool :=
  isolation_count ← required isolation_count;
  time_window ← required time_window;
  device_name ← required device_name;
  let subject := "SOC Agent Alert: Rate Limit Exceeded" in
  let body := "SOC Agent Rate Limit Alert" in
  send_email_alert (Given subject) (Given body) Omitted.

(** [alert_isolation_declined(device_name, threat_title, threat_confidence,
    user="system")] *)
Definition alert_isolation_declined (device_name : arg (option string))
    (threat_title threat_confidence : arg string) (user : arg string) : result bool :=
  device_name ← required device_name;
  threat_title ← required threat_title;
  threat_confidence ← required threat_confidence;
  let user := with_default "system" user in
  let subject := "SOC Agent Alert: High-Confidence Threat Isolation Declined" in
  let body := "SOC Agent Decision Alert" in
  send_email_alert (Given subject) (Given body) Omitted.

(** [alert_mass_isolation_attempt(isolation_count, user="system")] *)
Definition alert_mass_isolation_attempt (isolation_count : arg Z)
    (user : arg string) : result bool :=
  isolation_count ← required isolation_count;
  let user := with_default "system" user in
  let subject := "CRITICAL: Potential Mass Isolation Attack Detected" in
  let body := "CRITICAL SECURITY ALERT" in
  send_email_alert (Given subject) (Given body) Omitted.

(** [alert_daily_limit_reached(user="system")] *)
Definition alert_daily_limit_reached (user : arg string) : result bool :=
  let user := with_default "system" user in
  let subject := "SOC Agent: Daily Isolation Limit Reached - Approval Required" in
  let body := "SOC Agent Limit Alert" in
  send_email_alert (Given subject) (Given body) Omitted.

(** [alert_mass_isolation_decision(device_count, threat_count, decision,
    user="system", threat_summary=None)] *)
Definition alert_mass_isolation_decision (device_count threat_count : arg Z)
    (decision : arg string) (user : arg string) : result bool :=
  device_count ← required device_count;
  threat_count ← required threat_count;
  decision ← required decision;
  let user := with_default "system" user in
  let decision_text :=
    if String.eqb decision "approved" then "APPROVED" else "DENIED" in
  let subject := "Mass Isolation " +:+ decision_text in
  let body := "SOC Agent Mass Isolation Decision" in
  send_email_alert (Given subject) (Given body) Omitted.

End Alerts.

(** ** GUARDRAILS.py: lockout *)

(** [check_lockout]: does the lock file exist? *)
Definition check_lockout : M bool :=
  fun w => (Ok (bool_decide (is_Some (lock_file w))), w).

(** [LOCK_FILE.write_text(...)]: replaces the content of the file, or raises
    when the file cannot be written. *)
Definition write_lock_file (now : Z) (reason : string) : M unit :=
  fun w =>
    if lock_writable w
    then (Ok tt,
          {| lock_file := Some {| lock_time := now; lock_reason := reason |};
             lock_writable := lock_writable w;
             audit_log := audit_log w;
             isolation_events := isolation_events w |})
    else (Raise OSError, w).

Definition create_lockout (now : Z) (reason : string) : M unit :=
  try_except
    (_ ← write_lock_file now reason;
     _ ← log_action now "agent_lockout" true "system" None [("reason", reason)];
     mret tt)
    (fun e => mret tt).

(** ** GUARDRAILS.py: rate limits *)

Record RateResult : Type := {
  allowed : bool;
  reason : string;
  current_count : Z
}.

Definition fmt (n : Z) : string := pretty n.

Section RateLimits.

Variable keys : Keys.

Definition check_isolation_rate_limits (now : Z) (user : string) : M RateResult :=
  locked ← check_lockout;
  if (locked : bool) then
    mret {| allowed := false; reason := "Agent is locked"; current_count := 0 |}
  else
  (* 5-minute window *)
  count_5min ← count_isolations_in_window now None (Some 5%Z) (Some user);
  if (Limits.per_5_minutes <=? count_5min)%Z then
    _ ← lift (alert_rate_limit_exceeded keys
                (Given count_5min) (Given "5 minutes") Omitted);
    _ ← (if (Limits.per_5_minutes * 2 <? count_5min)%Z then
           _ ← create_lockout now
                 ("Excessive isolation rate: " +:+ fmt count_5min +:+ " in 5 minutes");
           _ ← lift (alert_mass_isolation_attempt keys (Given count_5min) (Given user));
           mret tt
         else mret tt);
    mret {| allowed := false;
            reason := "5-minute limit exceeded (" +:+ fmt count_5min +:+ "/"
                      +:+ fmt Limits.per_5_minutes +:+ ")";
            current_count := count_5min |}
  else
  (* 1-hour window *)
  count_1hour ← count_isolations_in_window now (Some 1%Z) None (Some user);
  if (Limits.per_hour <? count_1hour)%Z then
    _ ← lift (alert_rate_limit_exceeded keys
                (Given count_1hour) (Given "1 hour") Omitted);
    mret {| allowed := false;
            reason := "Hourly limit exceeded (" +:+ fmt count_1hour +:+ "/"
                      +:+ fmt Limits.per_hour +:+ ")";
            current_count := count_1hour |}
  else
  (* 24-hour window *)
  count_24hour ← count_isolations_in_window now (Some 24%Z) None (Some user);
  if (Limits.per_day <? count_24hour)%Z then
    _ ← lift (alert_daily_limit_reached keys (Given user));
    mret {| allowed := false;
            reason := "Daily limit reached (" +:+ fmt count_24hour +:+ "/"
                      +:+ fmt Limits.per_day +:+ ") - SOC lead approval required";
            current_count := count_24hour |}
  else
    mret {| allowed := true; reason := "Within rate limits";
            current_count := count_5min |}.

End RateLimits.

(** ** GUARDRAILS.py: mass-isolation exception *)

(** A finding of the hunt, a dictionary; [None] is an absent key. The values
    of the present keys are strings (a list of strings for the indicators). *)
Record Threat : Type := {
  t_title : option string;
  t_confidence : option string;
  t_device_name : option string;
  t_indicators_of_compromise : option (list string)
}.

(** [d[k]] *)
Definition item {A} (o : option A) : result A :=
  match o with
  | Some a => Ok a
  | None => Raise KeyError
  end.

(** [a or b] on optional strings: [a] when it is a non-empty string. *)
Definition or_else (a b : option string) : option string :=
  match a with
  | Some s => if PyStr.truthy s then a else b
  | None => b
  end.

Definition truthy_opt (a : option string) : bool :=
  match a with
  | Some s => PyStr.truthy s
  | None => false
  end.

Record SummaryItem : Type := {
  s_title : string;
  s_confidence : string;
  s_device_name : string;
  s_iocs : list string
}.

Record ExceptionData : Type := {
  exception_applies : bool;
  high_count : Z;
  critical_count : Z;
  total_high_critical : Z;
  total_devices : Z;
  threat_summary : list SummaryItem
}.

Definition has_confidence (level : string) (t : Threat) : bool :=
  String.eqb (PyStr.lower (default "" (t_confidence t))) level.

(** The device a threat is about: its own [device_name], else the device of
    the query. *)
Definition threat_device (device_name : option string) (t : Threat) : option string :=
  or_else (t_device_name t) device_name.

Definition check_mass_isolation_exception (threats : list Threat)
    (device_name : option string) : ExceptionData :=
  let high_threats := filter (fun t => has_confidence "high" t = true) threats in
  let critical_threats := filter (fun t => has_confidence "critical" t = true) threats in
  let high_count := Z.of_nat (length high_threats) in
  let critical_count := Z.of_nat (length critical_threats) in
  let total_high_critical := (high_count + critical_count)%Z in
  let unique_devices : gset string :=
    foldl (fun acc threat =>
             let device := threat_device device_name threat in
             match device with
             | Some d => if PyStr.truthy d then acc ∪ {[ d ]} else acc
             | None => acc
             end) ∅ threats in
  let device_count := Z.of_nat (size unique_devices) in
  let exception_applies := (10 <=? total_high_critical)%Z in
  let threat_summary :=
    (fun threat =>
       {| s_title := default "Unknown threat" (t_title threat);
          s_confidence := default "unknown" (t_confidence threat);
          s_device_name :=
            default "Unknown" (or_else (threat_device device_name threat) (Some "Unknown"));
          s_iocs := take 3 (default [] (t_indicators_of_compromise threat)) |})
    <$> take 10 (critical_threats ++ high_threats) in
  {| exception_applies := exception_applies;
     high_count := high_count;
     critical_count := critical_count;
     total_high_critical := total_high_critical;
     total_devices := device_count;
     threat_summary := threat_summary |}.

(** ** GUARDRAILS.py: mass-isolation confirmation *)

Record ConfirmationDecision : Type := {
  approved : bool;
  user_input : string;
  timestamp : Z
}.

(** [typed] is the line that [input] returns, [now] the clock when the
    decision is stamped. The summary is only displayed. *)
Definition confirm_mass_isolation (exception_data : ExceptionData)
    (typed : string) (now : Z) : ConfirmationDecision :=
  let user_input := PyStr.strip typed in
  let approved := String.eqb user_input "CONFIRM MASS ISOLATION" in
  {| approved := approved; user_input := user_input; timestamp := now |}.

(** ** _main.py: the automated response loop *)

Record QueryContext : Type := {
  qc_device_name : option string;
  about_individual_host : bool;
  about_individual_user : bool;
  about_network_security_group : bool
}.

(** The collaborators outside the repository's governance code, answered
    per position [i] of the threat in the batch:
    - [clock_at i]: the clock while threat [i] is processed;
    - [machine_id_at i]: what [EXECUTOR.get_mde_workstation_id_from_name]
      returns ([None] or an empty id when the device is not found);
    - [quarantine_success_at i]: the [success] field of what
      [EXECUTOR.quarantine_virtual_machine] returns;
    - [input_at i]: what the analyst types at the yes/no prompt. *)
Record Oracle : Type := {
  clock_at : nat -> Z;
  machine_id_at : nat -> option string;
  quarantine_success_at : nat -> bool;
  input_at : nat -> string
}.

(** What the loop does, in order; [i] is the position of the threat. *)
Inductive Event : Type :=
| AlreadyIsolatedSkip (i : nat)
| RateLimitCheck (i : nat) (allowed : bool)
| ConfirmationPrompt (i : nat)
| IsolationAttempt (i : nat) (device : option string) (success : bool)
| IsolationLogEntry (i : nat) (action_result : string)
| DeclineLogged (i : nat)
| LowConfidenceSkip (i : nat)
| NotImplemented (i : nat).

Definition event_index (e : Event) : nat :=
  match e with
  | AlreadyIsolatedSkip i | RateLimitCheck i _ | ConfirmationPrompt i
  | IsolationAttempt i _ _ | IsolationLogEntry i _ | DeclineLogged i
  | LowConfidenceSkip i | NotImplemented i => i
  end.

(** The variables of the loop: the database and lock file, the flag
    [machine_is_isolated], and the record of what happened. *)
Record LoopState : Type := {
  world : World;
  machine_is_isolated : bool;
  trace : list Event
}.

Abbreviation L := (ST LoopState).

Definition in_world {A} (m : M A) : L A :=
  fun s =>
    let '(r, w') := m (world s) in
    (r, {| world := w'; machine_is_isolated := machine_is_isolated s;
           trace := trace s |}).

Definition emit (e : Event) : L unit :=
  fun s =>
    (Ok tt, {| world := world s; machine_is_isolated := machine_is_isolated s;
               trace := trace s ++ [e] |}).

Definition get_machine_is_isolated : L bool :=
  fun s => (Ok (machine_is_isolated s), s).

Definition set_machine_is_isolated (b : bool) : L unit :=
  fun s => (Ok tt, {| world := world s; machine_is_isolated := b; trace := trace s |}).

(** How an iteration ends: fall through to the next threat ([continue]
    included) or [break]. *)
Inductive Control : Type :=
| Next
| Stop.

Section ResponseLoop.

Variable keys : Keys.
Variable oracle : Oracle.
Variable query_context : QueryContext.
Variable hunt_id : string.
Variable mass_isolation_approved : bool.

(** Resolve the device of the query, quarantine it and log the outcome;
    shared by the CRITICAL branch and the approved HIGH/MEDIUM branch, which
    differ in the [user_decision] they log. *)
Definition isolate_and_log (i : nat) (title : string)
    (decision_on_success decision_on_failure : option string) : L unit :=
  let machine_id := machine_id_at oracle i in
  if truthy_opt machine_id then
    let success := quarantine_success_at oracle i in
    _ ← emit (IsolationAttempt i (qc_device_name query_context) success);
    if success then
      _ ← set_machine_is_isolated true;
      _ ← in_world (log_isolation_event (clock_at oracle i) (default "" machine_id)
                      (qc_device_name query_context) hunt_id title
                      "success" "cli_user" None decision_on_success false);
      emit (IsolationLogEntry i "success")
    else
      _ ← in_world (log_isolation_event (clock_at oracle i) (default "" machine_id)
                      (qc_device_name query_context) hunt_id title
                      "failed" "cli_user" None decision_on_failure false);
      emit (IsolationLogEntry i "failed")
  else mret tt.

(** The body of [for threat in hunt_results['findings']]. *)
Definition process_threat (i : nat) (threat : Threat) : L Control :=
  confidence ← lift (item (t_confidence threat));
  let threat_confidence := PyStr.lower confidence in
  if about_individual_host query_context || mass_isolation_approved then
    isolated ← get_machine_is_isolated;
    if (isolated : bool) then
      _ ← emit (AlreadyIsolatedSkip i);
      mret Next
    else
      rate_limit_check ←
        in_world (check_isolation_rate_limits keys (clock_at oracle i) "cli_user");
      _ ← emit (RateLimitCheck i (allowed rate_limit_check));
      if negb (allowed rate_limit_check) then mret Stop
      else
        let should_ask_confirmation := requires_confirmation threat_confidence in
        let can_auto_isolate := should_auto_isolate threat_confidence in
        if can_auto_isolate then
          title ← lift (item (t_title threat));
          _ ← isolate_and_log i title (Some "auto_approved") None;
          mret Next
        else if should_ask_confirmation then
          title ← lift (item (t_title threat));
          _ ← emit (ConfirmationPrompt i);
          let confirm := PyStr.lower (PyStr.strip (input_at oracle i)) in
          if PyStr.startswith "y" confirm then
            _ ← isolate_and_log i title (Some "approved") (Some "approved");
            mret Next
          else
            _ ← lift (alert_isolation_declined keys
                        (Given (qc_device_name query_context)) (Given title)
                        (Given threat_confidence) (Given "cli_user"));
            _ ← in_world (log_user_decision (clock_at oracle i)
                            (qc_device_name query_context) title
                            "declined" threat_confidence);
            _ ← emit (DeclineLogged i);
            mret Next
        else
          _ ← emit (LowConfidenceSkip i);
          mret Next
  else if about_individual_user query_context then
    _ ← emit (NotImplemented i);
    mret Next
  else if about_network_security_group query_context then
    _ ← emit (NotImplemented i);
    mret Next
  else mret Next.

Fixpoint run_loop (i : nat) (threats : list Threat) : L unit :=
  match threats with
  | [] => mret tt
  | threat :: rest =>
      c ← process_threat i threat;
      match c with
      | Next => run_loop (S i) rest
      | Stop => mret tt
      end
  end.

(** The loop from its start: [machine_is_isolated = False]. *)
Definition response_loop (threats : list Threat) (w : World) : result unit * LoopState :=
  run_loop 0 threats {| world := w; machine_is_isolated := false; trace := [] |}.

End ResponseLoop.

(** ** Vocabulary of the statements *)

(** Two strings are equal up to letter case. *)
Definition equals_ignoring_case (s t : string) : Prop :=
  PyStr.lower s = PyStr.lower t.

#[export] Instance equals_ignoring_case_dec s t : Decision (equals_ignoring_case s t).
Proof. unfold equals_ignoring_case. apply _. Defined.

(** The number of threats of a batch whose confidence is [level] up to
    letter case; a threat without a confidence counts as the empty string. *)
Definition count_confidence (level : string) (threats : list Threat) : Z :=
  Z.of_nat (length (filter
    (fun t => equals_ignoring_case (default "" (t_confidence t)) level) threats)).

(** The audit record that [create_lockout] appends. *)
Definition lockout_record (now : Z) (reason : string) : AuditRecord :=
  {| al_timestamp := now;
     al_action_type := "agent_lockout";
     al_user := "system";
     al_device_name := None;
     al_success := true;
     al_details := Some [("reason", reason)] |}.

Definition is_successful_isolation (e : Event) : bool :=
  match e with
  | IsolationAttempt _ _ true => true
  | _ => false
  end.

(** What a check returns while the lock is engaged. *)
Definition locked_result : RateResult :=
  {| allowed := false; reason := "Agent is locked"; current_count := 0 |}.

(** What a check returns when every window is within its limit. *)
Definition within_limits_result (count_5min : Z) : RateResult :=
  {| allowed := true; reason := "Within rate limits"; current_count := count_5min |}.

(** The number of successful quarantines among the events of a run. *)
Fixpoint successful_isolations (evs : list Event) : nat :=
  match evs with
  | [] => 0
  | e :: rest =>
      (if is_successful_isolation e then 1 else 0) + successful_isolations rest
  end.

(** Sample data: a successful isolation by [user] at time [ts], and a world
    without lock whose table holds [n] of them. *)
Definition sample_success (ts : Z) (user : string) : IsolationEvent :=
  {| ie_timestamp := ts;
     ie_user := user;
     ie_machine_id := "machine-1";
     ie_device_name := Some "windows-target-1";
     ie_threat_id := "hunt-1";
     ie_threat_title := "Suspicious PowerShell Activity";
     ie_action_result := "success";
     ie_approved_by := None;
     ie_user_decision := Some "auto_approved";
     ie_alert_sent := false |}.

Definition sample_world (n : nat) (ts : Z) (user : string) : World :=
  {| lock_file := None;
     lock_writable := true;
     audit_log := [];
     isolation_events := replicate n (sample_success ts user) |}.

Definition sample_keys : Keys :=
  {| SMTP_USER := "agent@example.org";
     SMTP_PASSWORD := "secret";
     SOC_LEAD_EMAIL := "lead@example.org" |}.

(** What holds of the loop variables before the threat at position [k]:
    every skip by the flag follows a successful quarantine, at most one
    quarantine has succeeded, the flag is set exactly after one, and every
    quarantine was aimed at the device of the query. *)
Definition loop_invariant (query_context : QueryContext) (k : nat) (s : LoopState) : Prop :=
  (forall j, In (AlreadyIsolatedSkip j) (trace s) ->
     exists i, i < j /\
       In (IsolationAttempt i (qc_device_name query_context) true) (trace s)) /\
  successful_isolations (trace s) <= 1 /\
  (machine_is_isolated s = false -> successful_isolations (trace s) = 0) /\
  (machine_is_isolated s = true ->
     exists i, i < k /\
       In (IsolationAttempt i (qc_device_name query_context) true) (trace s)) /\
  (forall j d b, In (IsolationAttempt j d b) (trace s) ->
     d = qc_device_name query_context).

(** Sample data for the loop: a query about host "host-a", collaborators
    that find the machine, quarantine it and answer yes, and a batch of two
    critical findings, the second about another device. *)
Definition sample_oracle : Oracle :=
  {| clock_at := fun _ => 2000%Z;
     machine_id_at := fun _ => Some "machine-1";
     quarantine_success_at := fun _ => true;
     input_at := fun _ => "yes" |}.

Definition sample_query : QueryContext :=
  {| qc_device_name := Some "host-a";
     about_individual_host := true;
     about_individual_user := false;
     about_network_security_group := false |}.

Definition sample_threat (confidence device : string) : Threat :=
  {| t_title := Some "Suspicious PowerShell Activity";
     t_confidence := Some confidence;
     t_device_name := Some device;
     t_indicators_of_compromise := Some ["encoded_command.exe"] |}.

Definition sample_batch : list Threat :=
  [sample_threat "critical" "host-a"; sample_threat "critical" "host-b"].

Definition sample_locked_world : World :=
  {| lock_file := Some {| lock_time := 1500; lock_reason := "Mass isolation attempt detected" |};
     lock_writable := true;
     audit_log := [lockout_record 1500 "Mass isolation attempt detected"];
     isolation_events := [] |}.

(** ** database/db_manager.py: the window of a count *)

(** The [delta] that [count_isolations_in_window] computes from its
    [hours] and [minutes]: hours when given and not zero, else minutes when
    given and not zero, else [ValueError]. *)
Definition window_delta (hours minutes : option Z) : result Z :=
  if truthy_int hours then Ok (default 0%Z hours * usec_per_hour)%Z
  else if truthy_int minutes then Ok (default 0%Z minutes * usec_per_minute)%Z
  else Raise ValueError.

(** The user condition of the query: present for a non-empty [user]. *)
Definition actor_filter (user : option string) : option string :=
  match user with
  | Some u => if PyStr.truthy u then Some u else None
  | None => None
  end.

(** The rows that the [WHERE] clause keeps. *)
Definition successes_since (cutoff_time : Z) (user : option string)
    (events : list IsolationEvent) : Z :=
  Z.of_nat (length (filter (fun e => in_window cutoff_time user e = true) events)).

(** [log_law_query] *)
Definition log_law_query (now : Z) (table_name : string) (device_name : option string)
    (record_count time_range_hours : Z) (success : bool) : M Z :=
  log_action now "law_query" success "system" device_name
    [("table_name", table_name);
     ("record_count", fmt record_count);
     ("time_range_hours", fmt time_range_hours)].

(** ** GUARDRAILS.py: batch size *)

Record BatchCheck : Type := {
  batch_allowed : bool;
  batch_reason : string
}.

Definition check_batch_size (threat_count : Z) : BatchCheck :=
  if (Limits.batch_size_max <? threat_count)%Z then
    {| batch_allowed := false;
       batch_reason := "Too many threats in single hunt (" +:+ fmt threat_count
                       +:+ "). Narrow your search scope." |}
  else
    {| batch_allowed := true; batch_reason := "Batch size acceptable" |}.

(** ** GUARDRAILS.py: allowed tables and fields *)

(** A call of [exit(code)] ends the process. *)
Inductive Validation : Type :=
| Validated
| SystemExit (code : Z).

Definition ALLOWED_TABLES : gmap string (gset string) :=
  <["DeviceProcessEvents" :=
      {[ "TimeGenerated"; "AccountName"; "ActionType"; "DeviceName";
         "InitiatingProcessCommandLine"; "ProcessCommandLine" ]}]>
  (<["DeviceNetworkEvents" :=
      {[ "TimeGenerated"; "ActionType"; "DeviceName"; "RemoteIP"; "RemotePort" ]}]>
  (<["DeviceLogonEvents" :=
      {[ "TimeGenerated"; "AccountName"; "DeviceName"; "ActionType"; "RemoteIP";
         "RemoteDeviceName" ]}]>
  (<["AlertInfo" := ∅]>
  (<["AlertEvidence" := ∅]>
  (<["DeviceFileEvents" :=
      {[ "TimeGenerated"; "ActionType"; "DeviceName"; "FileName"; "FolderPath";
         "InitiatingProcessAccountName"; "SHA256" ]}]>
  (<["DeviceRegistryEvents" := ∅]>
  (<["AzureNetworkAnalytics_CL" :=
      {[ "TimeGenerated"; "FlowType_s"; "SrcPublicIPs_s"; "DestIP_s"; "DestPort_d";
         "VM_s"; "AllowedInFlows_d"; "AllowedOutFlows_d"; "DeniedInFlows_d";
         "DeniedOutFlows_d" ]}]>
  (<["AzureActivity" :=
      {[ "TimeGenerated"; "OperationNameValue"; "ActivityStatusValue"; "ResourceGroup";
         "Caller"; "CallerIpAddress"; "Category" ]}]>
  (<["SigninLogs" :=
      {[ "TimeGenerated"; "UserPrincipalName"; "OperationName"; "Category";
         "ResultSignature"; "ResultDescription"; "AppDisplayName"; "IPAddress";
         "LocationDetails" ]}]> ∅))))))))).

(** [s.replace(' ', '')] *)
Fixpoint remove_spaces (s : string) : string :=
  match s with
  | EmptyString => EmptyString
  | String c s' =>
      if Ascii.eqb c " "%char then remove_spaces s' else String c (remove_spaces s')
  end.

(** [s.split(',')]: the pieces between the commas, empty pieces included;
    the empty string gives one empty piece. *)
Fixpoint split_commas (s : string) : list string :=
  match s with
  | EmptyString => [EmptyString]
  | String c s' =>
      if Ascii.eqb c ","%char then EmptyString :: split_commas s'
      else match split_commas s' with
           | piece :: pieces => String c piece :: pieces
           | [] => [String c EmptyString]
           end
  end.

(** The loop [for field in fields: if field not in ALLOWED_TABLES[table]:
    exit(1)]. *)
Fixpoint validate_fields (allowed : gset string) (fields : list string) : Validation :=
  match fields with
  | [] => Validated
  | field :: rest =>
      if bool_decide (field ∈ allowed) then validate_fields allowed rest
      else SystemExit 1
  end.

Definition validate_tables_and_fields (table fields : string) : Validation :=
  match ALLOWED_TABLES !! table with
  | None => SystemExit 1
  | Some allowed =>
      let fields := split_commas (remove_spaces fields) in
      validate_fields allowed fields
  end.

(** ** _keys.py: required settings *)

(** What [os.getenv] returns for the two required settings; [None] is an
    unset variable. *)
Record Secrets : Type := {
  OPENAI_API_KEY : option string;
  LOG_ANALYTICS_WORKSPACE_ID : option string
}.

Definition validate_configuration (env : Secrets) : result unit :=
  let errors : list string := [] in
  let errors :=
    if negb (truthy_opt (OPENAI_API_KEY env))
    then (errors ++ ["OPENAI_API_KEY is not set"])%list
    else if bool_decide (OPENAI_API_KEY env = Some "your-actual-openai-key-here")
    then (errors ++ ["OPENAI_API_KEY still has placeholder value"])%list
    else errors in
  let errors :=
    if negb (truthy_opt (LOG_ANALYTICS_WORKSPACE_ID env))
    then (errors ++ ["LOG_ANALYTICS_WORKSPACE_ID is not set"])%list
    else if bool_decide (LOG_ANALYTICS_WORKSPACE_ID env = Some "your-workspace-id-here")
    then (errors ++ ["LOG_ANALYTICS_WORKSPACE_ID still has placeholder value"])%list
    else errors in
  match errors with
  | [] => Ok tt
  | _ => Raise ValueError
  end.

Record ConfigSummary : Type := {
  openai_key_configured : bool;
  workspace_id_configured : bool;
  smtp_configured : bool;
  soc_lead_email_configured : bool
}.

Definition get_config_summary (env : Secrets) (keys : Keys) : ConfigSummary :=
  {| openai_key_configured :=
       truthy_opt (OPENAI_API_KEY env)
       && negb (bool_decide (OPENAI_API_KEY env = Some "your-actual-openai-key-here"));
     workspace_id_configured :=
       truthy_opt (LOG_ANALYTICS_WORKSPACE_ID env)
       && negb (bool_decide (LOG_ANALYTICS_WORKSPACE_ID env = Some "your-workspace-id-here"));
     smtp_configured := PyStr.truthy (SMTP_USER keys) && PyStr.truthy (SMTP_PASSWORD keys);
     soc_lead_email_configured := PyStr.truthy (SOC_LEAD_EMAIL keys) |}.

(** ** _main.py: the mass-isolation stage before the loop *)

(** How the stage ends: the script goes on to the loop with its
    [mass_isolation_approved], or it calls [exit]. *)
Inductive StageOutcome : Type :=
| Proceed (mass_isolation_approved : bool)
| Exited (code : Z).

(** [typed] is what the analyst types at the confirmation, [now] the clock.
    [query_context.get("device_name", "multiple")] is the device of the
    query, the key being present. *)
Definition mass_isolation_stage (keys : Keys) (threats : list Threat)
    (query_context : QueryContext) (typed : string) (now : Z) : M StageOutcome :=
  let exception_data :=
    check_mass_isolation_exception threats (qc_device_name query_context) in
  if exception_applies exception_data then
    let decision := confirm_mass_isolation exception_data typed now in
    let mass_isolation_approved := approved decision in
    let decision_text := if mass_isolation_approved then "approved" else "denied" in
    _ ← lift (alert_mass_isolation_decision keys
                (Given (total_devices exception_data))
                (Given (total_high_critical exception_data))
                (Given decision_text) (Given "cli_user"));
    _ ← log_user_decision now (qc_device_name query_context)
          ("Mass isolation: " +:+ fmt (total_high_critical exception_data) +:+ " threats")
          decision_text "high/critical";
    if negb mass_isolation_approved then mret (Exited 0)
    else mret (Proceed true)
  else mret (Proceed false).

(** ** Vocabulary of the further statements *)

(** The actor's counts at time [now] are within the three limits and no
    lock is engaged: the condition under which a check allows. *)
Definition within_limits (now : Z) (user : string) (w : World) : Prop :=
  lock_file w = None /\
  (successes_since (now - 5 * usec_per_minute) (actor_filter (Some user))
     (isolation_events w) < 5)%Z /\
  (successes_since (now - 1 * usec_per_hour) (actor_filter (Some user))
     (isolation_events w) <= 10)%Z /\
  (successes_since (now - 24 * usec_per_hour) (actor_filter (Some user))
     (isolation_events w) <= 15)%Z.

(** The outcomes of the quarantine calls of a run, in order, as the
    [action_result] that is logged for each. *)
Fixpoint attempt_results (evs : list Event) : list string :=
  match evs with
  | [] => []
  | IsolationAttempt _ _ success :: rest =>
      (if success then "success" else "failed") :: attempt_results rest
  | _ :: rest => attempt_results rest
  end.

Definition is_isolation_attempt (e : Event) : bool :=
  match e with
  | IsolationAttempt _ _ _ => true
  | _ => false
  end.

(** What holds of the store and of the record of events at any point of a
    run of the loop over [threats] that started in the store [w0]. *)
Definition store_invariant (oracle : Oracle) (query_context : QueryContext)
    (hunt_id : string) (mass_isolation_approved : bool) (threats : list Threat)
    (w0 : World) (s : LoopState) : Prop :=
  lock_file (world s) = lock_file w0 /\
  audit_log (world s) = audit_log w0 /\
  lock_writable (world s) = lock_writable w0 /\
  (exists rows,
      isolation_events (world s) = (isolation_events w0 ++ rows)%list /\
      map ie_action_result rows = attempt_results (trace s) /\
      Forall (fun row => ie_user row = "cli_user" /\
                         ie_device_name row = qc_device_name query_context /\
                         ie_threat_id row = hunt_id) rows) /\
  (machine_is_isolated s = false -> successful_isolations (trace s) = 0) /\
  (forall j, ~ In (DeclineLogged j) (trace s)) /\
  (forall e, In e (trace s) ->
     is_isolation_attempt e = true \/ e = ConfirmationPrompt (event_index e) ->
     within_limits (clock_at oracle (event_index e)) "cli_user" w0 /\
     about_individual_host query_context || mass_isolation_approved = true) /\
  (forall j d b, In (IsolationAttempt j d b) (trace s) ->
     truthy_opt (machine_id_at oracle j) = true /\
     b = quarantine_success_at oracle j /\
     exists t c,
       threats !! j = Some t /\ t_confidence t = Some c /\
       (classify c = AutoIsolate /\ ~ In (ConfirmationPrompt j) (trace s) \/
        classify c = RequireConfirmation /\ In (ConfirmationPrompt j) (trace s) /\
        PyStr.startswith "y" (PyStr.lower (PyStr.strip (input_at oracle j))) = true)) /\
  (about_individual_host query_context || mass_isolation_approved = false ->
   Forall (fun e => e = NotImplemented (event_index e)) (trace s)).

(** The analyst's answer at the prompt for threat [j] is a yes: stripped and
    lowered it starts with "y". *)
Definition answers_yes (oracle : Oracle) (j : nat) : bool :=
  PyStr.startswith "y" (PyStr.lower (PyStr.strip (input_at oracle j))).

(** The state in which the loop starts. *)
Definition loop_start (w : World) : LoopState :=
  {| world := w; machine_is_isolated := false; trace := [] |}.

(** Sample data: a high-confidence finding, and an analyst who declines. *)
Definition sample_declining_oracle : Oracle :=
  {| clock_at := fun _ => 2000%Z;
     machine_id_at := fun _ => Some "machine-1";
     quarantine_success_at := fun _ => true;
     input_at := fun _ => "no" |}.

Definition sample_user_query : QueryContext :=
  {| qc_device_name := None;
     about_individual_host := false;
     about_individual_user := true;
     about_network_security_group := false |}.

Definition sample_unrated_threat : Threat :=
  {| t_title := Some "Unclassified finding";
     t_confidence := None;
     t_device_name := Some "host-a";
     t_indicators_of_compromise := None |}.

Definition sample_mass_batch : list Threat :=
  (replicate 4 (sample_threat "critical" "host-a")
   ++ replicate 6 (sample_threat "HIGH" "host-b"))%list.

Definition sample_secrets : Secrets :=
  {| OPENAI_API_KEY := Some "sk-live-key";
     LOG_ANALYTICS_WORKSPACE_ID := Some "workspace-1" |}.

(** * Properties *)

(** ** Confidence policy *)

Lemma rule_lookup (k : string) :
  CONFIDENCE_RULES !! k =
    if decide (k = "critical") then Some "auto_isolate"
    else if decide (k = "high") then Some "require_confirmation"
    else if decide (k = "medium") then Some "require_confirmation"
    else if decide (k = "low") then Some "no_auto_isolate"
    else None.
Proof.
  unfold CONFIDENCE_RULES.
  rewrite !lookup_insert, lookup_empty.
  repeat case_decide; congruence.
Qed.

Lemma confidence_rule_cases (confidence : string) :
  confidence_rule confidence =
    if decide (PyStr.lower confidence = "critical") then "auto_isolate"
    else if decide (PyStr.lower confidence = "low") then "no_auto_isolate"
    else "require_confirmation".
Proof.
  unfold confidence_rule, dict_get.
  rewrite rule_lookup.
  repeat case_decide; simpl; congruence.
Qed.

Lemma should_auto_isolate_iff (confidence : string) :
  should_auto_isolate confidence = true <-> PyStr.lower confidence = "critical".
Proof.
  unfold should_auto_isolate. rewrite confidence_rule_cases.
  repeat case_decide; simpl; split; intros; congruence.
Qed.

Lemma requires_confirmation_iff (confidence : string) :
  requires_confirmation confidence = true <->
  PyStr.lower confidence <> "critical" /\ PyStr.lower confidence <> "low".
Proof.
  unfold requires_confirmation. rewrite confidence_rule_cases.
  repeat case_decide; simpl; split; intros; try congruence; try tauto.
Qed.

Lemma lower_idempotent (s : string) : PyStr.lower (PyStr.lower s) = PyStr.lower s.
Proof.
  induction s as [|c s IH]; simpl; [reflexivity|].
  rewrite IH. f_equal.
  destruct c as [[] [] [] [] [] [] [] []]; reflexivity.
Qed.

(** C4. The confidence policy selects auto-isolation exactly for the strings
    equal to "critical" up to letter case, skip exactly for those equal to
    "low", and confirmation for every other string: "high" and "medium" in
    any letter case and all unrecognized strings. *)
Theorem confidence_policy_table (confidence : string) :
  (classify confidence = AutoIsolate <-> equals_ignoring_case confidence "critical") /\
  (should_auto_isolate confidence = true <-> equals_ignoring_case confidence "critical") /\
  (classify confidence = Skip <-> equals_ignoring_case confidence "low") /\
  (classify confidence = RequireConfirmation <->
     ~ equals_ignoring_case confidence "critical" /\
     ~ equals_ignoring_case confidence "low") /\
  (equals_ignoring_case confidence "high" \/ equals_ignoring_case confidence "medium" ->
     classify confidence = RequireConfirmation /\ requires_confirmation confidence = true).
Proof.
  unfold equals_ignoring_case. simpl PyStr.lower.
  change (PyStr.lower "critical") with "critical".
  change (PyStr.lower "low") with "low".
  change (PyStr.lower "high") with "high".
  change (PyStr.lower "medium") with "medium".
  pose proof (should_auto_isolate_iff confidence) as Ha.
  pose proof (requires_confirmation_iff confidence) as Hr.
  unfold classify.
  destruct (should_auto_isolate confidence) eqn:Ea;
    destruct (requires_confirmation confidence) eqn:Er.
  - (* both: impossible *)
    exfalso. destruct Hr as [Hr _]. destruct (Hr eq_refl) as [Hn _].
    apply Hn, Ha. reflexivity.
  - assert (Hc : PyStr.lower confidence = "critical") by (apply Ha; reflexivity).
    intuition congruence.
  - destruct Hr as [Hr _]. destruct (Hr eq_refl) as [Hn1 Hn2].
    intuition congruence.
  - assert (Hc : PyStr.lower confidence <> "critical").
    { intros Hc. apply Ha in Hc. congruence. }
    assert (Hl : PyStr.lower confidence = "low").
    { destruct (decide (PyStr.lower confidence = "low")) as [|Hn]; [assumption|].
      destruct Hr as [_ Hr]. specialize (Hr (conj Hc Hn)). congruence. }
    intuition congruence.
Qed.

(** C10. No confidence string makes both predicates true, and the branch of
    the response loop is determined by them: auto-isolation when the first
    holds, confirmation when the second holds, skip when neither does. *)
Theorem directives_exclusive (confidence : string) :
  should_auto_isolate confidence && requires_confirmation confidence = false /\
  (classify confidence = AutoIsolate <-> should_auto_isolate confidence = true) /\
  (classify confidence = RequireConfirmation <-> requires_confirmation confidence = true) /\
  (classify confidence = Skip <->
     should_auto_isolate confidence = false /\ requires_confirmation confidence = false).
Proof.
  pose proof (should_auto_isolate_iff confidence) as Ha.
  pose proof (requires_confirmation_iff confidence) as Hr.
  unfold classify.
  destruct (should_auto_isolate confidence) eqn:Ea;
    destruct (requires_confirmation confidence) eqn:Er; simpl.
  - exfalso. destruct Hr as [Hr _]. destruct (Hr eq_refl) as [Hn _].
    apply Hn, Ha. reflexivity.
  - intuition congruence.
  - intuition congruence.
  - intuition congruence.
Qed.

(** The loop lowers the confidence before it asks the policy, which lowers
    it again: the directive is that of the confidence as found. *)
Lemma classify_lower (confidence : string) :
  classify (PyStr.lower confidence) = classify confidence.
Proof.
  unfold classify, should_auto_isolate, requires_confirmation, confidence_rule.
  rewrite lower_idempotent. reflexivity.
Qed.

(** ** Mass-isolation exception *)

Lemma has_confidence_count (level : string) (threats : list Threat) :
  PyStr.lower level = level ->
  Z.of_nat (length (filter (fun t => has_confidence level t = true) threats))
  = count_confidence level threats.
Proof.
  intros Hlevel. unfold count_confidence. f_equal. f_equal.
  apply list_filter_iff. intros t.
  unfold has_confidence, equals_ignoring_case.
  rewrite String.eqb_eq, Hlevel. reflexivity.
Qed.

(** C5. The result of [check_mass_isolation_exception] is a function of the
    batch and the device hint alone; its counters are the numbers of threats
    whose confidence is "high" and "critical" up to letter case, and
    [exception_applies] is the test that their sum is at least 10: false
    when the sum is 9, true when it is 10. *)
Theorem exception_applies_threshold (threats : list Threat) (device_name : option string) :
  let r := check_mass_isolation_exception threats device_name in
  high_count r = count_confidence "high" threats /\
  critical_count r = count_confidence "critical" threats /\
  exception_applies r = (10 <=? high_count r + critical_count r)%Z /\
  (exception_applies r = true <->
     (10 <= count_confidence "high" threats + count_confidence "critical" threats)%Z) /\
  ((high_count r + critical_count r = 9)%Z -> exception_applies r = false) /\
  ((high_count r + critical_count r = 10)%Z -> exception_applies r = true).
Proof.
  cbv zeta. unfold check_mass_isolation_exception; cbn [high_count critical_count exception_applies].
  rewrite !has_confidence_count by reflexivity.
  repeat split.
  - intros H. apply Z.leb_le in H. exact H.
  - intros H. apply Z.leb_le. exact H.
  - intros H. rewrite H. reflexivity.
  - intros H. rewrite H. reflexivity.
Qed.

(** ** Mass-isolation confirmation *)

(** The claim C6 as worded: approval exactly for the raw input equal to the
    phrase. An input with surrounding blanks is approved too. *)
Lemma confirm_raw_input_counterexample :
  ~ (forall (exception_data : ExceptionData) (typed : string) (now : Z),
        approved (confirm_mass_isolation exception_data typed now) = true
        <-> typed = "CONFIRM MASS ISOLATION").
Proof.
  intros H.
  specialize (H (check_mass_isolation_exception [] None)
                " CONFIRM MASS ISOLATION " 0%Z).
  destruct H as [H _]. specialize (H eq_refl). discriminate H.
Qed.

(** C6, amended. The confirmation approves exactly when the typed line,
    with leading and trailing white space removed, is the phrase
    "CONFIRM MASS ISOLATION" in this letter case; the empty line and the
    lower-case phrase are declines, and the decision records the stripped
    line. *)
Theorem confirm_stripped_phrase (exception_data : ExceptionData) (typed : string) (now : Z) :
  let d := confirm_mass_isolation exception_data typed now in
  (approved d = true <-> PyStr.strip typed = "CONFIRM MASS ISOLATION") /\
  user_input d = PyStr.strip typed /\
  approved (confirm_mass_isolation exception_data "" now) = false /\
  approved (confirm_mass_isolation exception_data "confirm mass isolation" now) = false /\
  approved (confirm_mass_isolation exception_data "CONFIRM MASS ISOLATION" now) = true.
Proof.
  cbv zeta. unfold confirm_mass_isolation; cbn [approved user_input].
  rewrite String.eqb_eq. repeat split; auto.
Qed.

(** ** Lockout *)

Lemma create_lockout_writable (now : Z) (reason : string) (w : World) :
  lock_writable w = true ->
  create_lockout now reason w =
    (Ok tt,
     {| lock_file := Some {| lock_time := now; lock_reason := reason |};
        lock_writable := true;
        audit_log := (audit_log w ++ [lockout_record now reason])%list;
        isolation_events := isolation_events w |}).
Proof.
  intros Hw.
  unfold create_lockout, try_except, write_lock_file, log_action, mbind, ST_bind, mret, ST_ret.
  rewrite Hw. cbn. reflexivity.
Qed.

(** The claim C7 as worded: a call on an engaged lock changes nothing. *)
Lemma create_lockout_not_idempotent :
  ~ (forall (now : Z) (reason : string) (w : World),
        is_Some (lock_file w) ->
        snd (create_lockout now reason w) = w).
Proof.
  intros H.
  specialize (H 200%Z "second"
    {| lock_file := Some {| lock_time := 100; lock_reason := "first" |};
       lock_writable := true;
       audit_log := [lockout_record 100 "first"];
       isolation_events := [] |}).
  cbn in H. specialize (H (ex_intro _ _ eq_refl)).
  discriminate H.
Qed.

(** C7, amended. Every call of [create_lockout] whose write succeeds
    replaces the content of the lock file by the new time and reason and
    appends one "agent_lockout" audit record, whether or not the lock was
    engaged. After two calls in a row the lock is engaged, the one lock file
    holds the time and reason of the second call, and the audit log has two
    more records. *)
Theorem create_lockout_overwrites (now1 now2 : Z) (reason1 reason2 : string) (w : World) :
  lock_writable w = true ->
  let w1 := snd (create_lockout now1 reason1 w) in
  let w2 := snd (create_lockout now2 reason2 w1) in
  lock_file w1 = Some {| lock_time := now1; lock_reason := reason1 |} /\
  audit_log w1 = (audit_log w ++ [lockout_record now1 reason1])%list /\
  lock_file w2 = Some {| lock_time := now2; lock_reason := reason2 |} /\
  audit_log w2 = (audit_log w ++ [lockout_record now1 reason1; lockout_record now2 reason2])%list /\
  isolation_events w2 = isolation_events w.
Proof.
  intros Hw. cbv zeta.
  rewrite (create_lockout_writable now1 reason1 w Hw). cbn [snd].
  rewrite create_lockout_writable by reflexivity. cbn [snd lock_file audit_log isolation_events].
  rewrite <- app_assoc. repeat split; reflexivity.
Qed.

Lemma create_lockout_overwrites_witness :
  let w := {| lock_file := None; lock_writable := true;
              audit_log := []; isolation_events := [] |} in
  let w1 := snd (create_lockout 100 "first" w) in
  let w2 := snd (create_lockout 200 "second" w1) in
  lock_file w1 = Some {| lock_time := 100; lock_reason := "first" |} /\
  audit_log w1 = (audit_log w ++ [lockout_record 100 "first"])%list /\
  lock_file w2 = Some {| lock_time := 200; lock_reason := "second" |} /\
  audit_log w2 = (audit_log w ++ [lockout_record 100 "first"; lockout_record 200 "second"])%list /\
  isolation_events w2 = isolation_events w.
Proof.
  exact (create_lockout_overwrites 100 200 "first" "second"
           {| lock_file := None; lock_writable := true;
              audit_log := []; isolation_events := [] |} eq_refl).
Defined.

(** ** Alerts *)

(** Called with its three arguments, [send_email_alert] never raises: an
    unconfigured or failing mail layer gives [False]. *)
Lemma send_email_alert_swallows (keys : Keys) (subject body to_email : string) :
  send_email_alert keys (Given subject) (Given body) (Given to_email) = Ok false.
Proof.
  unfold send_email_alert, build_and_send; cbn.
  repeat match goal with |- context [if ?b then _ else _] => destruct b end; reflexivity.
Qed.

(** The alert functions call it with two. *)
Lemma send_email_alert_two_arguments (keys : Keys) (subject body : string) :
  send_email_alert keys (Given subject) (Given body) Omitted = Raise TypeError.
Proof. reflexivity. Qed.

(** C3, on the code. Each of the five notifier calls ends in [TypeError]
    instead of returning to its caller, whatever the mail settings and the
    values passed: [send_email_alert] is called without its third argument,
    and [alert_rate_limit_exceeded] is itself called without its third
    argument by the rate limiter. The exception leaves
    [check_isolation_rate_limits] too: with 5 successes in the window the
    check returns no result. *)
Theorem notifier_calls_raise (keys : Keys) :
  (forall count window,
      alert_rate_limit_exceeded keys (Given count) (Given window) Omitted
      = Raise TypeError) /\
  (forall count window device,
      alert_rate_limit_exceeded keys (Given count) (Given window) (Given device)
      = Raise TypeError) /\
  (forall count user,
      alert_mass_isolation_attempt keys (Given count) (Given user) = Raise TypeError) /\
  (forall user,
      alert_daily_limit_reached keys (Given user) = Raise TypeError) /\
  (forall device title confidence user,
      alert_isolation_declined keys (Given device) (Given title) (Given confidence)
        (Given user) = Raise TypeError) /\
  (forall devices threats decision user,
      alert_mass_isolation_decision keys (Given devices) (Given threats)
        (Given decision) (Given user) = Raise TypeError) /\
  (let w := sample_world 5 1000 "cli_user" in
   check_isolation_rate_limits keys 2000 "cli_user" w = (Raise TypeError, w)).
Proof. repeat split; intros; reflexivity. Qed.

(** ** Rate limits *)

(** While the lock file exists every check is a denial, for every actor and
    at every time, and it changes nothing. *)
Lemma locked_check_denies (keys : Keys) (now : Z) (user : string) (w : World) :
  is_Some (lock_file w) ->
  check_isolation_rate_limits keys now user w = (Ok locked_result, w).
Proof.
  intros Hl.
  unfold check_isolation_rate_limits, check_lockout, mbind, ST_bind.
  rewrite bool_decide_eq_true_2 by assumption. reflexivity.
Qed.

Lemma count_window_total (now : Z) (hours minutes : option Z) (user : option string)
    (w : World) (r : result Z) (w' : World) :
  count_isolations_in_window now hours minutes user w = (r, w') -> w' = w.
Proof.
  unfold count_isolations_in_window.
  destruct (truthy_int hours); [intros [= _ <-]; reflexivity|].
  destruct (truthy_int minutes); intros [= _ <-]; reflexivity.
Qed.

(** The outcome of a check while no lock is engaged, from the three
    counts. *)
Lemma unlocked_check_outcome (keys : Keys) (now : Z) (user : string) (w : World)
    (count_5min count_1hour count_24hour : Z) :
  lock_file w = None ->
  count_isolations_in_window now None (Some 5%Z) (Some user) w = (Ok count_5min, w) ->
  count_isolations_in_window now (Some 1%Z) None (Some user) w = (Ok count_1hour, w) ->
  count_isolations_in_window now (Some 24%Z) None (Some user) w = (Ok count_24hour, w) ->
  check_isolation_rate_limits keys now user w =
    (if (5 <=? count_5min)%Z then Raise TypeError
     else if (10 <? count_1hour)%Z then Raise TypeError
     else if (15 <? count_24hour)%Z then Raise TypeError
     else Ok {| allowed := true; reason := "Within rate limits";
                current_count := count_5min |},
     w).
Proof.
  intros Hl H5 H1 H24.
  unfold check_isolation_rate_limits, check_lockout.
  unfold mbind at 1. unfold ST_bind at 1.
  rewrite bool_decide_eq_false_2 by (rewrite Hl; apply is_Some_None).
  unfold mbind at 1. unfold ST_bind at 1. rewrite H5.
  change Limits.per_5_minutes with 5%Z.
  destruct (5 <=? count_5min)%Z; [reflexivity|].
  unfold mbind at 1. unfold ST_bind at 1. rewrite H1.
  change Limits.per_hour with 10%Z.
  destruct (10 <? count_1hour)%Z; [reflexivity|].
  unfold mbind at 1. unfold ST_bind at 1. rewrite H24.
  change Limits.per_day with 15%Z.
  destruct (15 <? count_24hour)%Z; reflexivity.
Qed.

Lemma unlocked_check_five (keys : Keys) (now : Z) (user : string) (w : World)
    (count_5min : Z) :
  lock_file w = None ->
  count_isolations_in_window now None (Some 5%Z) (Some user) w = (Ok count_5min, w) ->
  (5 <= count_5min)%Z ->
  check_isolation_rate_limits keys now user w = (Raise TypeError, w).
Proof.
  intros Hl H5 Hge.
  unfold check_isolation_rate_limits, check_lockout.
  unfold mbind at 1. unfold ST_bind at 1.
  rewrite bool_decide_eq_false_2 by (rewrite Hl; apply is_Some_None).
  unfold mbind at 1. unfold ST_bind at 1. rewrite H5.
  change Limits.per_5_minutes with 5%Z.
  destruct (5 <=? count_5min)%Z eqn:E; [reflexivity|].
  apply Z.leb_gt in E. lia.
Qed.

(** C1, on the code. With more than 10 successful isolations in the
    5-minute window and no lock engaged, the check neither returns a denial
    nor engages the lock: the call of [alert_rate_limit_exceeded] with two
    arguments raises [TypeError] before [create_lockout] is reached, and the
    lock file is still absent afterwards. *)
Theorem excessive_rate_check_raises (keys : Keys) (now : Z) (user : string) (w : World)
    (count_5min : Z) :
  lock_file w = None ->
  count_isolations_in_window now None (Some 5%Z) (Some user) w = (Ok count_5min, w) ->
  (10 < count_5min)%Z ->
  check_isolation_rate_limits keys now user w = (Raise TypeError, w) /\
  lock_file (snd (check_isolation_rate_limits keys now user w)) = None.
Proof.
  intros Hl H5 Hgt.
  rewrite (unlocked_check_five keys now user w count_5min Hl H5) by lia.
  split; [reflexivity | exact Hl].
Qed.

Lemma excessive_rate_check_raises_witness :
  let w := sample_world 11 1000 "cli_user" in
  check_isolation_rate_limits sample_keys 2000 "cli_user" w = (Raise TypeError, w) /\
  lock_file (snd (check_isolation_rate_limits sample_keys 2000 "cli_user" w)) = None.
Proof.
  exact (excessive_rate_check_raises sample_keys 2000 "cli_user"
           (sample_world 11 1000 "cli_user") 11 eq_refl eq_refl eq_refl).
Defined.

(** C2, on the code. While no lock is engaged the comparisons are those of
    the claim ([>= 5], then [> 10], then [> 15]) and a check within all three
    limits is allowed with the 5-minute count; but on each of the three
    denial paths the check raises [TypeError] from its alert call instead of
    returning a denial. With exactly 5 successes in the window nothing is
    returned, so no [current_count = 5] is reported. *)
Theorem denial_paths_raise (keys : Keys) (now : Z) (user : string) (w : World)
    (count_5min count_1hour count_24hour : Z) :
  lock_file w = None ->
  count_isolations_in_window now None (Some 5%Z) (Some user) w = (Ok count_5min, w) ->
  count_isolations_in_window now (Some 1%Z) None (Some user) w = (Ok count_1hour, w) ->
  count_isolations_in_window now (Some 24%Z) None (Some user) w = (Ok count_24hour, w) ->
  (check_isolation_rate_limits keys now user w = (Ok (within_limits_result count_5min), w)
   <-> (count_5min < 5 /\ count_1hour <= 10 /\ count_24hour <= 15)%Z) /\
  ((5 <= count_5min \/ 10 < count_1hour \/ 15 < count_24hour)%Z ->
   check_isolation_rate_limits keys now user w = (Raise TypeError, w)) /\
  (count_5min = 5%Z ->
   check_isolation_rate_limits keys now user w = (Raise TypeError, w)).
Proof.
  intros Hl H5 H1 H24.
  rewrite (unlocked_check_outcome keys now user w _ _ _ Hl H5 H1 H24).
  unfold within_limits_result.
  destruct (5 <=? count_5min)%Z eqn:E5;
    [apply Z.leb_le in E5 | apply Z.leb_gt in E5];
    (destruct (10 <? count_1hour)%Z eqn:E1;
     [apply Z.ltb_lt in E1 | apply Z.ltb_ge in E1]);
    (destruct (15 <? count_24hour)%Z eqn:E24;
     [apply Z.ltb_lt in E24 | apply Z.ltb_ge in E24]);
    repeat split; intros; try reflexivity; try discriminate; try lia.
Qed.

Lemma denial_paths_raise_witness :
  let w := sample_world 5 1000 "cli_user" in
  (check_isolation_rate_limits sample_keys 2000 "cli_user" w
     = (Ok (within_limits_result 5), w)
   <-> (5 < 5 /\ 5 <= 10 /\ 5 <= 15)%Z) /\
  ((5 <= 5 \/ 10 < 5 \/ 15 < 5)%Z ->
   check_isolation_rate_limits sample_keys 2000 "cli_user" w = (Raise TypeError, w)) /\
  (5%Z = 5%Z ->
   check_isolation_rate_limits sample_keys 2000 "cli_user" w = (Raise TypeError, w)).
Proof.
  exact (denial_paths_raise sample_keys 2000 "cli_user"
           (sample_world 5 1000 "cli_user") 5 5 5 eq_refl eq_refl eq_refl eq_refl).
Defined.

(** ** The response loop *)

Section LoopFacts.
Variable keys : Keys.
Variable oracle : Oracle.
Variable query_context : QueryContext.
Variable hunt_id : string.
Variable mass_isolation_approved : bool.

Ltac run_step :=
  repeat match goal with
    | H : (_, _) = (_, _) |- _ => inversion H; subst; clear H
    | H : context [match ?x with _ => _ end] |- _ => destruct x eqn:?
    end.

Ltac in_cases H :=
  repeat (destruct H as [H|H]; [try discriminate H; try (inversion H; subst) |]);
  try contradiction.

Lemma process_threat_facts (i : nat) (threat : Threat) (s s' : LoopState)
    (r : result Control) :
  process_threat keys oracle query_context hunt_id mass_isolation_approved i threat s
    = (r, s') ->
  exists evs,
    trace s' = (trace s ++ evs)%list /\
    Forall (fun e => event_index e = i) evs /\
    (r = Ok Stop <-> In (RateLimitCheck i false) evs) /\
    (In (AlreadyIsolatedSkip i) evs -> machine_is_isolated s = true) /\
    successful_isolations evs <= 1 /\
    (machine_is_isolated s = true -> successful_isolations evs = 0) /\
    (machine_is_isolated s' =
       if Nat.eqb (successful_isolations evs) 1 then true else machine_is_isolated s) /\
    (forall j d b, In (IsolationAttempt j d b) evs ->
                   d = qc_device_name query_context).
Proof.
  unfold process_threat.
  generalize (check_isolation_rate_limits keys (clock_at oracle i) "cli_user").
  intros check H.
  unfold isolate_and_log, mbind, ST_bind, mret, ST_ret, emit, in_world, lift,
    get_machine_is_isolated, set_machine_is_isolated, log_isolation_event,
    log_user_decision, log_action in H.
  cbn in H. run_step.
  all: cbn [trace machine_is_isolated world allowed] in *.
  all: repeat rewrite <- app_assoc.
  all: eexists; split; [first [reflexivity | symmetry; apply app_nil_r]|].
  all: cbn.
  all: repeat match goal with
         | H : negb (allowed ?a) = _ |- _ =>
             destruct (allowed a); cbn in H; try discriminate H; clear H
         end.
  all: repeat split; intros;
    try reflexivity; try lia; try discriminate; try assumption; try congruence;
    try (repeat constructor; fail);
    try (left; reflexivity);
    try (match goal with H : _ \/ _ |- _ => in_cases H; reflexivity end).
Qed.

Lemma successful_isolations_app (l1 l2 : list Event) :
  successful_isolations (l1 ++ l2) = successful_isolations l1 + successful_isolations l2.
Proof. induction l1 as [|e l1 IH]; simpl; [reflexivity | rewrite IH; lia]. Qed.

Lemma successful_isolations_pos (evs : list Event) :
  0 < successful_isolations evs ->
  exists j d, In (IsolationAttempt j d true) evs.
Proof.
  induction evs as [|e evs IH]; simpl; [lia|].
  destruct (is_successful_isolation e) eqn:E.
  - intros _. destruct e as [| | |j d [] | | | |]; try discriminate E.
    exists j, d. left. reflexivity.
  - intros H. destruct (IH H) as (j & d & Hin). exists j, d. right. exact Hin.
Qed.

Abbreviation run := (run_loop keys oracle query_context hunt_id mass_isolation_approved).

(** The events of a run from position [k] carry the positions of its
    threats. *)
Lemma run_loop_events (threats : list Threat) :
  forall (k : nat) (s s' : LoopState) (r : result unit),
    run k threats s = (r, s') ->
    exists evs,
      trace s' = (trace s ++ evs)%list /\
      Forall (fun e => k <= event_index e < k + length threats) evs.
Proof.
  induction threats as [|t rest IH]; intros k s s' r H.
  - inversion H; subst. exists []. split; [symmetry; apply app_nil_r | constructor].
  - cbn [run_loop] in H. unfold mbind, ST_bind in H.
    destruct (process_threat _ _ _ _ _ k t s) as [r1 s1] eqn:Hstep.
    destruct (process_threat_facts _ _ _ _ _ Hstep) as (evs & Htr & Hidx & _).
    assert (Hevs : Forall (fun e => k <= event_index e < k + length (t :: rest)) evs).
    { eapply Forall_impl; [exact Hidx|]. cbn. intros e He. lia. }
    destruct r1 as [[|]|e].
    + destruct (IH _ _ _ _ H) as (evs' & Htr' & Hidx').
      exists (evs ++ evs')%list. split.
      * rewrite Htr', Htr, app_assoc. reflexivity.
      * apply Forall_app. split; [exact Hevs|].
        eapply Forall_impl; [exact Hidx'|]. cbn. intros e He. lia.
    + inversion H; subst. exists evs. split; assumption.
    + inversion H; subst. exists evs. split; assumption.
Qed.

(** A denial at position [i] ends the run there. *)
Lemma run_loop_denial (threats : list Threat) :
  forall (k i : nat) (s : LoopState),
    ~ In (RateLimitCheck i false) (trace s) ->
    In (RateLimitCheck i false) (trace (snd (run k threats s))) ->
    k <= i /\
    run k threats s = run k (take (S (i - k)) threats) s /\
    fst (run k threats s) = Ok tt.
Proof.
  induction threats as [|t rest IH]; intros k i s Hnot Hin.
  - cbn in Hin. contradiction.
  - cbn [run_loop] in *. unfold mbind, ST_bind in *.
    cbn [take].
    destruct (process_threat _ _ _ _ _ k t s) as [r1 s1] eqn:Hstep.
    destruct (process_threat_facts _ _ _ _ _ Hstep) as (evs & Htr & Hidx & Hstop & _).
    assert (Hevs : In (RateLimitCheck i false) evs -> i = k /\ r1 = Ok Stop).
    { intros He. rewrite Forall_forall in Hidx.
      assert (i = k) as -> by exact (Hidx _ (proj2 (list_elem_of_In _ _) He)).
      split; [reflexivity | apply Hstop; exact He]. }
    destruct r1 as [[|]|e].
    + assert (Hnot1 : ~ In (RateLimitCheck i false) (trace s1)).
      { rewrite Htr, in_app_iff. intros [H|H]; [contradiction|].
        destruct (Hevs H) as [_ Habs]. discriminate Habs. }
      destruct (IH (S k) i s1 Hnot1 Hin) as (Hle & Heq & Hok).
      split; [lia|].
      replace (i - k) with (S (i - S k)) by lia.
      cbn [run_loop]. unfold mbind, ST_bind. rewrite Hstep.
      split; assumption.
    + cbn in Hin. rewrite Htr, in_app_iff in Hin.
      destruct Hin as [H|H]; [contradiction|].
      destruct (Hevs H) as [-> _].
      split; [lia|]. cbn [run_loop]. unfold mbind, ST_bind. rewrite Hstep.
      split; reflexivity.
    + cbn in Hin. rewrite Htr, in_app_iff in Hin.
      destruct Hin as [H|H]; [contradiction|].
      destruct (Hevs H) as [_ Habs]. discriminate Habs.
Qed.

Lemma process_threat_invariant (k : nat) (threat : Threat) (s s' : LoopState)
    (r : result Control) :
  process_threat keys oracle query_context hunt_id mass_isolation_approved k threat s
    = (r, s') ->
  loop_invariant query_context k s -> loop_invariant query_context (S k) s'.
Proof.
  intros Hstep (Hskip & Hone & Hzero & Hflag & Hdev).
  destruct (process_threat_facts _ _ _ _ _ Hstep)
    as (evs & Htr & Hidx & _ & Hsk & Hle & Hnone & Hnew & Hd).
  rewrite Forall_forall in Hidx.
  assert (Hfresh : 0 < successful_isolations evs ->
            In (IsolationAttempt k (qc_device_name query_context) true) evs).
  { intros Hpos. destruct (successful_isolations_pos _ Hpos) as (j & d & Hin).
    pose proof (Hidx _ (proj2 (list_elem_of_In _ _) Hin)) as Hj. cbn in Hj.
    rewrite (Hd _ _ _ Hin) in Hin. subst j. exact Hin. }
  assert (Hflag' : machine_is_isolated s' = true ->
            exists i, i < S k /\
              In (IsolationAttempt i (qc_device_name query_context) true) (trace s')).
  { intros Ht. rewrite Htr. rewrite Hnew in Ht.
    destruct (Nat.eqb_spec (successful_isolations evs) 1) as [E|E].
    - exists k. split; [lia|]. apply in_app_iff. right. apply Hfresh. lia.
    - destruct (Hflag Ht) as (i & Hi & Hin).
      exists i. split; [lia|]. apply in_app_iff. left. exact Hin. }
  repeat split.
  - intros j Hin. rewrite Htr in Hin |- *. apply in_app_iff in Hin.
    destruct Hin as [Hin|Hin].
    + destruct (Hskip j Hin) as (i & Hi & Hi'). exists i. split; [exact Hi|].
      apply in_app_iff. left. exact Hi'.
    + pose proof (Hidx _ (proj2 (list_elem_of_In _ _) Hin)) as Hj. cbn in Hj. subst j.
      destruct (Hflag (Hsk Hin)) as (i & Hi & Hi'). exists i. split; [exact Hi|].
      apply in_app_iff. left. exact Hi'.
  - rewrite Htr, successful_isolations_app.
    destruct (machine_is_isolated s) eqn:Ef.
    + rewrite (Hnone eq_refl). lia.
    + rewrite (Hzero eq_refl). lia.
  - intros Hf. rewrite Htr, successful_isolations_app. rewrite Hnew in Hf.
    destruct (Nat.eqb_spec (successful_isolations evs) 1) as [E|E]; [discriminate Hf|].
    rewrite (Hzero Hf). lia.
  - exact Hflag'.
  - intros j d b Hin. rewrite Htr in Hin. apply in_app_iff in Hin.
    destruct Hin as [Hin|Hin]; [exact (Hdev _ _ _ Hin) | exact (Hd _ _ _ Hin)].
Qed.

Lemma run_loop_invariant (threats : list Threat) :
  forall (k : nat) (s : LoopState),
    loop_invariant query_context k s ->
    exists k', loop_invariant query_context k' (snd (run k threats s)).
Proof.
  induction threats as [|t rest IH]; intros k s Hinv.
  - exists k. exact Hinv.
  - cbn [run_loop]. unfold mbind, ST_bind.
    destruct (process_threat _ _ _ _ _ k t s) as [r1 s1] eqn:Hstep.
    pose proof (process_threat_invariant _ _ _ _ _ Hstep Hinv) as Hinv1.
    destruct r1 as [[|]|e].
    + apply (IH (S k) s1 Hinv1).
    + exists (S k). exact Hinv1.
    + exists (S k). exact Hinv1.
Qed.

Lemma loop_invariant_start (w : World) :
  loop_invariant query_context 0 {| world := w; machine_is_isolated := false; trace := [] |}.
Proof.
  repeat split; cbn; intros; try contradiction; try discriminate; lia.
Qed.


Abbreviation response :=
  (response_loop keys oracle query_context hunt_id mass_isolation_approved).

(** C8. When the rate-limit check of the threat at position [i] returns a
    denial, the loop ends normally there: the final database, lock file,
    flag and record of events are those of the batch cut after that
    threat, and no check, prompt, isolation attempt or isolation log entry
    belongs to a later threat. *)
Theorem denial_ends_batch (threats : list Threat) (w : World) (i : nat) :
  In (RateLimitCheck i false) (trace (snd (response threats w))) ->
  response threats w = response (take (S i) threats) w /\
  fst (response threats w) = Ok tt /\
  (forall e, In e (trace (snd (response threats w))) -> event_index e <= i).
Proof.
  intros Hin. unfold response_loop in *.
  destruct (run_loop_denial threats 0 i
              {| world := w; machine_is_isolated := false; trace := [] |}
              (fun H => H) Hin) as (_ & Heq & Hok).
  rewrite Nat.sub_0_r in Heq.
  split; [exact Heq|]. split; [exact Hok|].
  rewrite Heq. intros e He.
  destruct (run 0 (take (S i) threats)
              {| world := w; machine_is_isolated := false; trace := [] |})
    as [r s'] eqn:Hrun.
  destruct (run_loop_events _ _ _ _ _ Hrun) as (evs & Htr & Hidx).
  cbn in He, Htr. rewrite Htr in He.
  rewrite Forall_forall in Hidx.
  specialize (Hidx e (proj2 (list_elem_of_In _ _) He)).
  pose proof (length_take_le threats (S i)) as Hlen.
  rewrite length_take in Hidx. lia.
Qed.

(** C9, amended. The flag [machine_is_isolated] is one flag for the whole
    batch and every quarantine is aimed at the device of the query, not at
    the device a threat names: a threat is skipped by the already-isolated
    rule only after an earlier threat of the batch led to a successful
    quarantine of the query's device, at most one quarantine succeeds per
    run, and no threat is skipped by the rule before one has succeeded. *)
Theorem isolated_flag_spans_batch (threats : list Threat) (w : World) :
  let s := snd (response threats w) in
  (forall j, In (AlreadyIsolatedSkip j) (trace s) ->
     exists i, i < j /\
       In (IsolationAttempt i (qc_device_name query_context) true) (trace s)) /\
  successful_isolations (trace s) <= 1 /\
  (forall j d b, In (IsolationAttempt j d b) (trace s) ->
     d = qc_device_name query_context) /\
  (successful_isolations (trace s) = 0 ->
     forall j, ~ In (AlreadyIsolatedSkip j) (trace s)).
Proof.
  cbv zeta. unfold response_loop.
  destruct (run_loop_invariant threats 0 _ (loop_invariant_start w))
    as (k' & Hskip & Hone & _ & _ & Hdev).
  repeat split; try assumption.
  intros Hzero j Hj.
  destruct (Hskip j Hj) as (i & _ & Hin).
  clear - Hzero Hin.
  induction (trace _) as [|e l IH]; cbn in *; [contradiction|].
  destruct Hin as [->|Hin]; cbn in Hzero; [lia|].
  apply IH; [lia | exact Hin].
Qed.

End LoopFacts.

Lemma denial_ends_batch_witness :
  let response := response_loop sample_keys sample_oracle sample_query "hunt-1" false in
  response sample_batch sample_locked_world
    = response (take 1 sample_batch) sample_locked_world /\
  fst (response sample_batch sample_locked_world) = Ok tt /\
  (forall e, In e (trace (snd (response sample_batch sample_locked_world))) ->
             event_index e <= 0).
Proof.
  apply (denial_ends_batch sample_keys sample_oracle sample_query "hunt-1" false
           sample_batch sample_locked_world 0).
  vm_compute. left. reflexivity.
Defined.

(** The claim C9 as worded: a skip by the already-isolated rule only after a
    successful isolation of the device the skipped threat is about. The
    second threat of the sample batch is about "host-b" and is skipped after
    the quarantine of "host-a". *)
Lemma skip_ignores_threat_device :
  ~ (forall (keys : Keys) (oracle : Oracle) (query_context : QueryContext)
            (hunt_id : string) (mass_isolation_approved : bool)
            (threats : list Threat) (w : World) (j : nat) (threat : Threat),
        threats !! j = Some threat ->
        In (AlreadyIsolatedSkip j)
           (trace (snd (response_loop keys oracle query_context hunt_id
                          mass_isolation_approved threats w))) ->
        exists i, i < j /\
          In (IsolationAttempt i (threat_device (qc_device_name query_context) threat) true)
             (trace (snd (response_loop keys oracle query_context hunt_id
                            mass_isolation_approved threats w)))).
Proof.
  intros H.
  specialize (H sample_keys sample_oracle sample_query "hunt-1" false
                sample_batch (sample_world 0 1000 "cli_user") 1
                (sample_threat "critical" "host-b") eq_refl).
  assert (Hin : In (AlreadyIsolatedSkip 1)
                  (trace (snd (response_loop sample_keys sample_oracle sample_query
                                 "hunt-1" false sample_batch
                                 (sample_world 0 1000 "cli_user"))))).
  { vm_compute. do 3 right. left. reflexivity. }
  destruct (H Hin) as (i & _ & Habs).
  vm_compute in Habs.
  repeat (destruct Habs as [Habs|Habs]; [discriminate Habs|]).
  contradiction.
Qed.

(** * Further properties *)

(** ** Counting isolations *)

Lemma count_unfold (now : Z) (hours minutes : option Z) (user : option string)
    (w : World) :
  count_isolations_in_window now hours minutes user w =
    match window_delta hours minutes with
    | Ok delta =>
        (Ok (successes_since (now - delta) (actor_filter user) (isolation_events w)), w)
    | Raise e => (Raise e, w)
    end.
Proof.
  unfold count_isolations_in_window, window_delta, successes_since, actor_filter.
  destruct (truthy_int hours); [reflexivity|].
  destruct (truthy_int minutes); reflexivity.
Qed.

Lemma successes_since_cons (cutoff : Z) (user : option string) (e : IsolationEvent)
    (events : list IsolationEvent) :
  successes_since cutoff user (e :: events) =
    ((if in_window cutoff user e then 1 else 0) + successes_since cutoff user events)%Z.
Proof.
  unfold successes_since. rewrite filter_cons.
  destruct (decide (in_window cutoff user e = true)) as [H|H].
  - rewrite H. cbn [length]. lia.
  - apply not_true_is_false in H. rewrite H. lia.
Qed.

Lemma successes_since_app (cutoff : Z) (user : option string)
    (l1 l2 : list IsolationEvent) :
  successes_since cutoff user (l1 ++ l2) =
    (successes_since cutoff user l1 + successes_since cutoff user l2)%Z.
Proof.
  induction l1 as [|e l1 IH]; [reflexivity|].
  cbn [app]. rewrite !successes_since_cons, IH. lia.
Qed.

Lemma successes_since_bounds (cutoff : Z) (user : option string)
    (events : list IsolationEvent) :
  (0 <= successes_since cutoff user events <= Z.of_nat (length events))%Z.
Proof.
  induction events as [|e l IH]; [unfold successes_since; rewrite filter_nil; cbn; lia|].
  rewrite successes_since_cons. cbn [length].
  destruct (in_window cutoff user e); lia.
Qed.

Lemma in_window_earlier (c1 c2 : Z) (user : option string) (e : IsolationEvent) :
  (c2 <= c1)%Z -> in_window c1 user e = true -> in_window c2 user e = true.
Proof.
  unfold in_window. intros Hle H.
  apply andb_true_iff in H as [H Hres]. apply andb_true_iff in H as [Hts Hu].
  rewrite Hres, Hu. apply Z.leb_le in Hts.
  replace (c2 <=? ie_timestamp e)%Z with true by (symmetry; apply Z.leb_le; lia).
  reflexivity.
Qed.

Lemma in_window_any_user (cutoff : Z) (user : option string) (e : IsolationEvent) :
  in_window cutoff user e = true -> in_window cutoff None e = true.
Proof.
  unfold in_window. intros H.
  apply andb_true_iff in H as [H Hres]. apply andb_true_iff in H as [Hts Hu].
  rewrite Hres, Hts. reflexivity.
Qed.

(** A longer window counts at least as much. *)
Lemma successes_since_mono (c1 c2 : Z) (user : option string)
    (events : list IsolationEvent) :
  (c2 <= c1)%Z ->
  (successes_since c1 user events <= successes_since c2 user events)%Z.
Proof.
  intros Hle. induction events as [|e l IH]; [reflexivity|].
  rewrite !successes_since_cons.
  destruct (in_window c1 user e) eqn:E1.
  - rewrite (in_window_earlier c1 c2 user e Hle E1). lia.
  - destruct (in_window c2 user e); lia.
Qed.

Lemma successes_since_any_user (cutoff : Z) (user : option string)
    (events : list IsolationEvent) :
  (successes_since cutoff user events <= successes_since cutoff None events)%Z.
Proof.
  induction events as [|e l IH]; [reflexivity|].
  rewrite !successes_since_cons.
  destruct (in_window cutoff user e) eqn:E1.
  - rewrite (in_window_any_user cutoff user e E1). lia.
  - destruct (in_window cutoff None e); lia.
Qed.

(** X1. For one clock reading, actor and table, the three counts that the
    rate limiter takes are nested: none is negative, the 5-minute count is at
    most the 1-hour count, which is at most the 24-hour count, which is at
    most the number of rows; none of the three calls raises or changes the
    store. *)
Theorem window_counts_nested (now : Z) (user : string) (w : World) :
  exists count_5min count_1hour count_24hour : Z,
    count_isolations_in_window now None (Some 5%Z) (Some user) w = (Ok count_5min, w) /\
    count_isolations_in_window now (Some 1%Z) None (Some user) w = (Ok count_1hour, w) /\
    count_isolations_in_window now (Some 24%Z) None (Some user) w = (Ok count_24hour, w) /\
    (0 <= count_5min <= count_1hour)%Z /\
    (count_1hour <= count_24hour <= Z.of_nat (length (isolation_events w)))%Z.
Proof.
  exists (successes_since (now - 5 * usec_per_minute) (actor_filter (Some user))
            (isolation_events w)),
         (successes_since (now - 1 * usec_per_hour) (actor_filter (Some user))
            (isolation_events w)),
         (successes_since (now - 24 * usec_per_hour) (actor_filter (Some user))
            (isolation_events w)).
  rewrite !count_unfold.
  split; [reflexivity|]. split; [reflexivity|]. split; [reflexivity|].
  repeat split.
  - apply successes_since_bounds.
  - apply successes_since_mono. unfold usec_per_hour, usec_per_minute. lia.
  - apply successes_since_mono. unfold usec_per_hour. lia.
  - apply successes_since_bounds.
Qed.

Lemma log_isolation_event_store (now : Z) (machine_id : string)
    (device_name : option string) (threat_id threat_title action_result user : string)
    (approved_by user_decision : option string) (alert_sent : bool) (w : World) :
  exists row,
    log_isolation_event now machine_id device_name threat_id threat_title
      action_result user approved_by user_decision alert_sent w
    = (Ok (Z.of_nat (S (length (isolation_events w)))),
       {| lock_file := lock_file w;
          lock_writable := lock_writable w;
          audit_log := audit_log w;
          isolation_events := (isolation_events w ++ [row])%list |}) /\
    ie_timestamp row = now /\ ie_user row = user /\
    ie_action_result row = action_result /\ ie_device_name row = device_name.
Proof. eexists. split; [reflexivity|]. repeat split. Qed.

(** X2. An isolation logged with a result other than "success" (a failed
    or declined one) changes no count: for every clock reading, window and
    actor, [count_isolations_in_window] returns after the insert what it
    returned before. *)
Theorem unsuccessful_isolation_not_counted (ts : Z) (machine_id : string)
    (device_name : option string) (threat_id threat_title action_result actor : string)
    (approved_by user_decision : option string) (alert_sent : bool) (w : World)
    (now : Z) (hours minutes : option Z) (user : option string) :
  action_result <> "success" ->
  fst (count_isolations_in_window now hours minutes user
         (snd (log_isolation_event ts machine_id device_name threat_id threat_title
                 action_result actor approved_by user_decision alert_sent w)))
  = fst (count_isolations_in_window now hours minutes user w).
Proof.
  intros Hres.
  destruct (log_isolation_event_store ts machine_id device_name threat_id threat_title
              action_result actor approved_by user_decision alert_sent w)
    as (row & -> & _ & _ & Hrow & _).
  rewrite !count_unfold. cbn [snd isolation_events].
  destruct (window_delta hours minutes) as [delta|e]; [|reflexivity].
  cbn [fst]. f_equal.
  rewrite successes_since_app.
  assert (Hzero : successes_since (now - delta) (actor_filter user) [row] = 0%Z).
  { rewrite successes_since_cons. unfold in_window. rewrite Hrow.
    replace (String.eqb action_result "success") with false
      by (symmetry; apply String.eqb_neq; exact Hres).
    rewrite andb_false_r. reflexivity. }
  rewrite Hzero. lia.
Qed.

Lemma unsuccessful_isolation_not_counted_witness :
  fst (count_isolations_in_window 2000 None (Some 5%Z) (Some "cli_user")
         (snd (log_isolation_event 1500 "machine-1" (Some "host-a") "hunt-1"
                 "Suspicious PowerShell Activity" "failed" "cli_user" None None false
                 (sample_world 4 1000 "cli_user"))))
  = fst (count_isolations_in_window 2000 None (Some 5%Z) (Some "cli_user")
           (sample_world 4 1000 "cli_user")).
Proof.
  apply (unsuccessful_isolation_not_counted 1500 "machine-1" (Some "host-a") "hunt-1"
           "Suspicious PowerShell Activity" "failed" "cli_user" None None false
           (sample_world 4 1000 "cli_user") 2000 None (Some 5%Z) (Some "cli_user")).
  discriminate.
Defined.

(** X3. A successful isolation logged for an actor at a time inside the
    window raises that actor's count, and the count over all actors, by
    exactly one, and leaves the count of every other actor as it was. *)
Theorem logged_success_counted_once (ts : Z) (machine_id : string)
    (device_name : option string) (threat_id threat_title actor : string)
    (approved_by user_decision : option string) (alert_sent : bool) (w : World)
    (now : Z) (hours minutes : option Z) (delta : Z) :
  window_delta hours minutes = Ok delta ->
  (now - delta <= ts)%Z ->
  PyStr.truthy actor = true ->
  let w' := snd (log_isolation_event ts machine_id device_name threat_id threat_title
                   "success" actor approved_by user_decision alert_sent w) in
  (exists count,
      count_isolations_in_window now hours minutes (Some actor) w = (Ok count, w) /\
      count_isolations_in_window now hours minutes (Some actor) w' = (Ok (count + 1)%Z, w')) /\
  (exists count,
      count_isolations_in_window now hours minutes None w = (Ok count, w) /\
      count_isolations_in_window now hours minutes None w' = (Ok (count + 1)%Z, w')) /\
  (forall other, other <> actor -> PyStr.truthy other = true ->
      fst (count_isolations_in_window now hours minutes (Some other) w')
      = fst (count_isolations_in_window now hours minutes (Some other) w)).
Proof.
  intros Hdelta Hts Hactor. cbv zeta.
  destruct (log_isolation_event_store ts machine_id device_name threat_id threat_title
              "success" actor approved_by user_decision alert_sent w)
    as (row & -> & Hrts & Hruser & Hrres & _).
  cbn [snd]. rewrite !count_unfold, Hdelta. cbn [isolation_events].
  assert (Hin : forall u, successes_since (now - delta) u [row] =
                  if in_window (now - delta) u row then 1%Z else 0%Z).
  { intros u. rewrite successes_since_cons.
    destruct (in_window (now - delta) u row); reflexivity. }
  assert (Hw : forall u, in_window (now - delta) u row =
                 match u with Some x => String.eqb actor x | None => true end).
  { intros u. unfold in_window. rewrite Hrts, Hruser, Hrres.
    replace (now - delta <=? ts)%Z with true by (symmetry; apply Z.leb_le; lia).
    cbn. rewrite andb_true_r. reflexivity. }
  repeat split.
  - eexists. split; [reflexivity|].
    rewrite successes_since_app, Hin, Hw. unfold actor_filter. rewrite Hactor.
    rewrite String.eqb_refl. reflexivity.
  - eexists. split; [reflexivity|].
    rewrite successes_since_app, Hin, Hw. reflexivity.
  - intros other Hne Hother. rewrite !count_unfold, Hdelta. cbn [fst isolation_events].
    rewrite successes_since_app, Hin, Hw. unfold actor_filter. rewrite Hother.
    replace (String.eqb actor other) with false
      by (symmetry; apply String.eqb_neq; congruence).
    rewrite Z.add_0_r. reflexivity.
Qed.

Lemma logged_success_counted_once_witness :
  let w := sample_world 4 1000 "cli_user" in
  let w' := snd (log_isolation_event 1500 "machine-1" (Some "host-a") "hunt-1"
                   "Suspicious PowerShell Activity" "success" "cli_user"
                   None (Some "approved") false w) in
  (exists count,
      count_isolations_in_window 2000 None (Some 5%Z) (Some "cli_user") w = (Ok count, w) /\
      count_isolations_in_window 2000 None (Some 5%Z) (Some "cli_user") w'
      = (Ok (count + 1)%Z, w')) /\
  (exists count,
      count_isolations_in_window 2000 None (Some 5%Z) None w = (Ok count, w) /\
      count_isolations_in_window 2000 None (Some 5%Z) None w' = (Ok (count + 1)%Z, w')) /\
  (forall other, other <> "cli_user" -> PyStr.truthy other = true ->
      fst (count_isolations_in_window 2000 None (Some 5%Z) (Some other) w')
      = fst (count_isolations_in_window 2000 None (Some 5%Z) (Some other) w)).
Proof.
  apply (logged_success_counted_once 1500 "machine-1" (Some "host-a") "hunt-1"
           "Suspicious PowerShell Activity" "cli_user" None (Some "approved") false
           (sample_world 4 1000 "cli_user") 2000 None (Some 5%Z) 300000000).
  - reflexivity.
  - vm_compute. discriminate.
  - reflexivity.
Defined.


(** X5. The count over all actors (no [user], or an empty one) is at least
    the count of any single actor, and no count exceeds the number of rows of
    the table. *)
Theorem count_all_actors_bound (now : Z) (hours minutes : option Z) (actor : string)
    (w : World) (delta : Z) :
  window_delta hours minutes = Ok delta ->
  exists count_all count_actor : Z,
    count_isolations_in_window now hours minutes None w = (Ok count_all, w) /\
    count_isolations_in_window now hours minutes (Some "") w = (Ok count_all, w) /\
    count_isolations_in_window now hours minutes (Some actor) w = (Ok count_actor, w) /\
    (0 <= count_actor <= count_all)%Z /\
    (count_all <= Z.of_nat (length (isolation_events w)))%Z.
Proof.
  intros Hdelta. rewrite !count_unfold, Hdelta.
  do 2 eexists. repeat split.
  - apply successes_since_bounds.
  - apply successes_since_any_user.
  - apply successes_since_bounds.
Qed.

Lemma count_all_actors_bound_witness :
  exists count_all count_actor : Z,
    count_isolations_in_window 2000 (Some 1%Z) None None (sample_world 4 1000 "cli_user")
    = (Ok count_all, sample_world 4 1000 "cli_user") /\
    count_isolations_in_window 2000 (Some 1%Z) None (Some "")
      (sample_world 4 1000 "cli_user")
    = (Ok count_all, sample_world 4 1000 "cli_user") /\
    count_isolations_in_window 2000 (Some 1%Z) None (Some "analyst")
      (sample_world 4 1000 "cli_user")
    = (Ok count_actor, sample_world 4 1000 "cli_user") /\
    (0 <= count_actor <= count_all)%Z /\
    (count_all <= Z.of_nat (length (isolation_events (sample_world 4 1000 "cli_user"))))%Z.
Proof.
  exact (count_all_actors_bound 2000 (Some 1%Z) None "analyst"
           (sample_world 4 1000 "cli_user") 3600000000 eq_refl).
Defined.

(** ** Lockout and alerts *)



(** X7. Called with a subject, a body and a recipient, [send_email_alert]
    reports failure in every configuration and never raises: without SMTP
    credentials or recipient it returns [False] at once, and with them the
    message build fails on the undefined [ALERT_FROM_EMAIL] and the error is
    caught. No call reports a sent alert. *)
Theorem alert_never_reported_sent (keys : Keys) (subject body to_email : string) :
  send_email_alert keys (Given subject) (Given body) (Given to_email) = Ok false /\
  send_email_alert keys (Given subject) (Given body) (Given to_email) <> Ok true /\
  (forall e, send_email_alert keys (Given subject) (Given body) (Given to_email)
             <> Raise e).
Proof.
  assert (H : send_email_alert keys (Given subject) (Given body) (Given to_email)
              = Ok false).
  { unfold send_email_alert, build_and_send; cbn.
    repeat match goal with |- context [if ?b then _ else _] => destruct b end;
      reflexivity. }
  rewrite H. repeat split; intros; discriminate.
Qed.

(** ** The mass-isolation exception *)

Lemma has_confidence_some (level : string) (t : Threat) :
  level <> "" ->
  has_confidence level t = true ->
  exists c, t_confidence t = Some c /\ PyStr.lower c = level.
Proof.
  unfold has_confidence. intros Hne H. apply String.eqb_eq in H.
  destruct (t_confidence t) as [c|]; cbn in H; [|congruence].
  exists c. split; [reflexivity | exact H].
Qed.

Lemma high_critical_exclusive (t : Threat) :
  has_confidence "high" t = true -> has_confidence "critical" t = true -> False.
Proof.
  unfold has_confidence. intros H1 H2.
  apply String.eqb_eq in H1. apply String.eqb_eq in H2. congruence.
Qed.

Lemma exclusive_filters_length (threats : list Threat) :
  length (filter (fun t => has_confidence "high" t = true) threats)
  + length (filter (fun t => has_confidence "critical" t = true) threats)
  <= length threats.
Proof.
  induction threats as [|t l IH]; [cbn; lia|].
  rewrite !filter_cons.
  pose proof (high_critical_exclusive t) as Hex.
  destruct (decide (has_confidence "high" t = true));
    destruct (decide (has_confidence "critical" t = true));
    cbn [length]; try lia.
  exfalso. auto.
Qed.

(** X8. The high and critical counts never exceed the size of the batch
    together (no threat is counted twice), so the exception needs a batch of
    at least 10 threats; a batch that also passes [check_batch_size] has
    between 10 and 50 threats. [check_batch_size] allows exactly the batches
    of at most 50. *)
Theorem exception_needs_ten_threats (threats : list Threat) (device_name : option string) :
  let r := check_mass_isolation_exception threats device_name in
  let n := Z.of_nat (length threats) in
  (total_high_critical r = high_count r + critical_count r)%Z /\
  (0 <= total_high_critical r <= n)%Z /\
  (batch_allowed (check_batch_size n) = true <-> (n <= 50)%Z) /\
  (exception_applies r = true -> (10 <= n)%Z) /\
  (exception_applies r = true -> batch_allowed (check_batch_size n) = true ->
   (10 <= n <= 50)%Z).
Proof.
  cbv zeta.
  unfold check_mass_isolation_exception;
    cbn [total_high_critical high_count critical_count exception_applies].
  pose proof (exclusive_filters_length threats) as Hlen.
  assert (Hb : batch_allowed (check_batch_size (Z.of_nat (length threats))) = true
               <-> (Z.of_nat (length threats) <= 50)%Z).
  { unfold check_batch_size. change Limits.batch_size_max with 50%Z.
    destruct (50 <? Z.of_nat (length threats))%Z eqn:E;
      [apply Z.ltb_lt in E | apply Z.ltb_ge in E]; cbn; split; intros;
      try discriminate; try lia; reflexivity. }
  split; [reflexivity|]. split; [lia|]. split; [exact Hb|]. split.
  - intros Hex. apply Z.leb_le in Hex. lia.
  - intros Hex Hall. apply Z.leb_le in Hex. apply Hb in Hall. lia.
Qed.

(** X9. The summary of the exception has as many items as there are high
    and critical threats, but at most 10; it lists critical threats before
    high ones (the item at a position below the critical count is critical,
    every other item is high, up to letter case), each with at most 3
    indicators. *)
Theorem threat_summary_shape (threats : list Threat) (device_name : option string) :
  let r := check_mass_isolation_exception threats device_name in
  Z.of_nat (length (threat_summary r)) = Z.min 10 (total_high_critical r) /\
  Forall (fun item => length (s_iocs item) <= 3) (threat_summary r) /\
  (forall (k : nat) (item : SummaryItem),
      threat_summary r !! k = Some item ->
      if (Z.of_nat k <? critical_count r)%Z
      then equals_ignoring_case (s_confidence item) "critical"
      else equals_ignoring_case (s_confidence item) "high").
Proof.
  cbv zeta.
  unfold check_mass_isolation_exception;
    cbn [threat_summary total_high_critical high_count critical_count].
  set (high := filter (fun t => has_confidence "high" t = true) threats).
  set (critical := filter (fun t => has_confidence "critical" t = true) threats).
  repeat split.
  - rewrite length_fmap, length_take, length_app. lia.
  - apply Forall_fmap, Forall_forall. intros t _. cbn.
    rewrite length_take. lia.
  - intros k item Hk.
    rewrite list_lookup_fmap in Hk.
    destruct (take 10 (critical ++ high) !! k) as [t|] eqn:Ht; [|discriminate Hk].
    cbn in Hk. injection Hk as <-. cbn [s_confidence].
    apply lookup_take_Some in Ht as [Ht _].
    unfold equals_ignoring_case.
    destruct (Z.of_nat k <? Z.of_nat (length critical))%Z eqn:E.
    + apply Z.ltb_lt in E.
      rewrite lookup_app_l in Ht by lia.
      apply list_elem_of_lookup_2, list_elem_of_filter in Ht as [Ht _].
      destruct (has_confidence_some "critical" t) as (c & Hc & Hl);
        [discriminate | exact Ht |].
      rewrite Hc. exact Hl.
    + apply Z.ltb_ge in E.
      rewrite lookup_app_r in Ht by lia.
      apply list_elem_of_lookup_2, list_elem_of_filter in Ht as [Ht _].
      destruct (has_confidence_some "high" t) as (c & Hc & Hl);
        [discriminate | exact Ht |].
      rewrite Hc. exact Hl.
Qed.

(** The set of devices that [check_mass_isolation_exception] builds, from a
    starting set. *)
Lemma device_set_spec (device_name : option string) (threats : list Threat) :
  forall (acc : gset string) (d : string),
    d ∈ foldl (fun acc threat =>
                 match threat_device device_name threat with
                 | Some d => if PyStr.truthy d then acc ∪ {[ d ]} else acc
                 | None => acc
                 end) acc threats
    <-> d ∈ acc \/
        exists t, t ∈ threats /\ threat_device device_name t = Some d /\
                  PyStr.truthy d = true.
Proof.
  induction threats as [|t l IH]; intros acc d; cbn [foldl].
  - split; [auto|]. intros [H|(t & Ht & _)]; [exact H|].
    apply elem_of_nil in Ht. contradiction.
  - rewrite IH. split.
    + intros [H|(t' & Ht' & Hd)].
      * destruct (threat_device device_name t) as [d'|] eqn:Ed; [|auto].
        destruct (PyStr.truthy d') eqn:Et; [|auto].
        apply elem_of_union in H as [H|H]; [auto|].
        apply elem_of_singleton in H. subst d'.
        right. exists t. split; [left|auto].
      * right. exists t'. split; [right; exact Ht' | exact Hd].
    + intros [H|(t' & Ht' & Hd & Htr)].
      * left. destruct (threat_device device_name t) as [d'|]; [|exact H].
        destruct (PyStr.truthy d'); [|exact H]. apply elem_of_union. auto.
      * apply elem_of_cons in Ht' as [->|Ht'].
        -- left. rewrite Hd, Htr. apply elem_of_union. right.
           apply elem_of_singleton. reflexivity.
        -- right. exists t'. auto.
Qed.

Lemma device_set_size (device_name : option string) (threats : list Threat) :
  forall (acc : gset string),
    size (foldl (fun acc threat =>
                   match threat_device device_name threat with
                   | Some d => if PyStr.truthy d then acc ∪ {[ d ]} else acc
                   | None => acc
                   end) acc threats)
    <= size acc + length threats.
Proof.
  induction threats as [|t l IH]; intros acc; cbn [foldl length]; [lia|].
  etransitivity; [apply IH|].
  destruct (threat_device device_name t) as [d|]; [|lia].
  destruct (PyStr.truthy d); [|lia].
  rewrite size_union_alt.
  assert (size (({[ d ]} : gset string) ∖ acc) <= 1).
  { rewrite <- (size_singleton (C:=gset string) d).
    apply subseteq_size. intros x Hx. apply elem_of_difference in Hx. tauto. }
  lia.
Qed.

(** X10. [total_devices] counts the distinct non-empty device names of the
    batch, a threat without a name of its own standing for the device of the
    query: it is at most the number of threats, it is zero exactly when no
    threat has a device at all, and a batch whose threats name no device of
    their own counts at most one device. *)
Theorem total_devices_bounds (threats : list Threat) (device_name : option string) :
  let r := check_mass_isolation_exception threats device_name in
  (0 <= total_devices r <= Z.of_nat (length threats))%Z /\
  (total_devices r = 0%Z <->
     forall t, t ∈ threats -> truthy_opt (threat_device device_name t) = false) /\
  ((forall t, t ∈ threats -> truthy_opt (t_device_name t) = false) ->
   (total_devices r <= 1)%Z).
Proof.
  cbv zeta. unfold check_mass_isolation_exception; cbn [total_devices].
  set (devices := foldl _ ∅ threats).
  pose proof (device_set_size device_name threats ∅) as Hsize.
  fold devices in Hsize. rewrite size_empty in Hsize.
  pose proof (fun d => device_set_spec device_name threats ∅ d) as Hspec.
  fold devices in Hspec.
  split; [lia|]. split.
  - split.
    + intros Hz t Ht.
      assert (Hempty : devices = ∅) by (apply leibniz_equiv, size_empty_iff; lia).
      destruct (threat_device device_name t) as [d|] eqn:Ed; [|reflexivity].
      cbn. destruct (PyStr.truthy d) eqn:Et; [|reflexivity].
      exfalso. apply (not_elem_of_empty (C:=gset string) d).
      rewrite <- Hempty. apply Hspec. right. exists t. auto.
    + intros Hall.
      assert (Hempty : devices = ∅).
      { apply set_eq. intros d. split; [|intros H; exfalso; set_solver].
        intros Hd. apply Hspec in Hd as [Hd|(t & Ht & Hd & Htr)]; [set_solver|].
        specialize (Hall t Ht). rewrite Hd in Hall. cbn in Hall. congruence. }
      rewrite Hempty, size_empty. reflexivity.
  - intros Hown.
    assert (Hsub : devices ⊆ match device_name with
                             | Some d => {[ d ]}
                             | None => ∅
                             end).
    { intros d Hd. apply Hspec in Hd as [Hd|(t & Ht & Hd & Htr)]; [set_solver|].
      specialize (Hown t Ht). unfold threat_device, or_else in Hd.
      destruct (t_device_name t) as [own|]; cbn in Hown.
      - rewrite Hown in Hd. rewrite Hd. apply elem_of_singleton. reflexivity.
      - rewrite Hd. apply elem_of_singleton. reflexivity. }
    apply subseteq_size in Hsub.
    destruct device_name; [rewrite size_singleton in Hsub | rewrite size_empty in Hsub];
      lia.
Qed.

(** ** The mass-isolation stage of the script *)

(** X11. In the script a batch that triggers the mass-isolation exception
    never reaches the response loop: whatever the analyst types at the
    confirmation, the decision alert raises [TypeError] before the decision
    is logged, and the store is unchanged. A batch that does not trigger it
    goes on with [mass_isolation_approved = False]. So the loop never runs
    with [mass_isolation_approved = True]. *)
Theorem mass_stage_outcome (keys : Keys) (threats : list Threat)
    (query_context : QueryContext) (typed : string) (now : Z) (w : World) :
  let r := check_mass_isolation_exception threats (qc_device_name query_context) in
  mass_isolation_stage keys threats query_context typed now w =
    (if exception_applies r then Raise TypeError else Ok (Proceed false), w) /\
  fst (mass_isolation_stage keys threats query_context typed now w) <> Ok (Proceed true) /\
  (forall code,
      fst (mass_isolation_stage keys threats query_context typed now w) <> Ok (Exited code)).
Proof.
  cbv zeta.
  assert (H : mass_isolation_stage keys threats query_context typed now w =
              (if exception_applies
                    (check_mass_isolation_exception threats (qc_device_name query_context))
               then Raise TypeError else Ok (Proceed false), w)).
  { unfold mass_isolation_stage.
    destruct (exception_applies _); reflexivity. }
  rewrite H. cbn [fst].
  destruct (exception_applies _); repeat split; intros; discriminate.
Qed.

(** ** Allowed tables and fields *)

Lemma split_commas_nonempty (s : string) : split_commas s <> [].
Proof.
  destruct s as [|c s]; cbn; [discriminate|].
  destruct (Ascii.eqb c ","); [discriminate|].
  destruct (split_commas s); discriminate.
Qed.

Lemma validate_fields_spec (allowed : gset string) (fields : list string) :
  (validate_fields allowed fields = Validated <-> Forall (fun f => f ∈ allowed) fields) /\
  (validate_fields allowed fields = Validated
   \/ validate_fields allowed fields = SystemExit 1).
Proof.
  induction fields as [|f l [IH1 IH2]]; cbn.
  - split; [split; [constructor | reflexivity] | left; reflexivity].
  - destruct (bool_decide (f ∈ allowed)) eqn:E.
    + apply bool_decide_eq_true in E. split; [|exact IH2].
      rewrite IH1. split; [intros H; constructor; assumption|].
      intros H. inversion H; assumption.
    + apply bool_decide_eq_false in E. split; [|right; reflexivity].
      split; [discriminate|]. intros H. inversion H. contradiction.
Qed.

Lemma no_table_allows_empty_field (table : string) (allowed : gset string) :
  ALLOWED_TABLES !! table = Some allowed -> "" ∉ allowed.
Proof.
  unfold ALLOWED_TABLES. rewrite !lookup_insert, lookup_empty.
  repeat case_decide; intros Heq; simplify_eq;
    rewrite ?elem_of_union, ?elem_of_singleton, ?elem_of_empty;
    intuition discriminate.
Qed.

(** X12. [validate_tables_and_fields] lets the script continue exactly when
    the table is in the allowed list and every piece of the field string
    between commas, blanks removed, is a field of that table; otherwise it
    exits with code 1. Hence it rejects the empty field string for every
    table, and rejects every field string for the tables whose field set is
    empty (AlertInfo, AlertEvidence, DeviceRegistryEvents). *)
Theorem validation_outcomes (table fields : string) :
  (validate_tables_and_fields table fields = Validated <->
     exists allowed,
       ALLOWED_TABLES !! table = Some allowed /\
       Forall (fun f => f ∈ allowed) (split_commas (remove_spaces fields))) /\
  (validate_tables_and_fields table fields = Validated
   \/ validate_tables_and_fields table fields = SystemExit 1) /\
  validate_tables_and_fields table "" = SystemExit 1 /\
  (table = "AlertInfo" \/ table = "AlertEvidence" \/ table = "DeviceRegistryEvents" ->
   validate_tables_and_fields table fields = SystemExit 1).
Proof.
  unfold validate_tables_and_fields.
  split; [|split; [|split]].
  - destruct (ALLOWED_TABLES !! table) as [allowed|] eqn:E.
    + rewrite (proj1 (validate_fields_spec allowed _)).
      split; [intros H; exists allowed; auto|].
      intros (a & [= <-] & H). exact H.
    + split; [discriminate|]. intros (a & Ha & _). discriminate Ha.
  - destruct (ALLOWED_TABLES !! table) as [allowed|]; [|right; reflexivity].
    apply validate_fields_spec.
  - destruct (ALLOWED_TABLES !! table) as [allowed|] eqn:E; [|reflexivity].
    cbn. rewrite bool_decide_eq_false_2; [reflexivity|].
    exact (no_table_allows_empty_field table allowed E).
  - assert (Hempty : forall allowed l, allowed = (∅ : gset string) -> l <> [] ->
                       validate_fields allowed l = SystemExit 1).
    { intros allowed [|f l] -> Hl; [congruence|]. cbn.
      rewrite bool_decide_eq_false_2; [reflexivity | set_solver]. }
    intros [-> | [-> | ->]]; cbn; apply Hempty; try reflexivity;
      apply split_commas_nonempty.
Qed.

(** ** Required settings *)

(** X13. [validate_configuration] passes exactly when the summary of
    [get_config_summary] reports both the OpenAI key and the workspace id as
    configured (set, non-empty and not the placeholder); otherwise it raises
    [ValueError]. The e-mail settings play no part. *)
Theorem configuration_valid_iff_summary (env : Secrets) (keys : Keys) :
  let summary := get_config_summary env keys in
  (validate_configuration env = Ok tt <->
     openai_key_configured summary = true /\ workspace_id_configured summary = true) /\
  (validate_configuration env = Ok tt \/ validate_configuration env = Raise ValueError).
Proof.
  cbv zeta. unfold validate_configuration, get_config_summary;
    cbn [openai_key_configured workspace_id_configured].
  destruct (truthy_opt (OPENAI_API_KEY env));
    destruct (bool_decide (OPENAI_API_KEY env = Some "your-actual-openai-key-here"));
    destruct (truthy_opt (LOG_ANALYTICS_WORKSPACE_ID env));
    destruct (bool_decide (LOG_ANALYTICS_WORKSPACE_ID env = Some "your-workspace-id-here"));
    cbn; split; try (left; reflexivity); try (right; reflexivity);
    split; intros; try discriminate; try (destruct H; discriminate); auto.
Qed.

(** ** The response loop and the store *)

Lemma classify_auto (confidence : string) :
  should_auto_isolate (PyStr.lower confidence) = true -> classify confidence = AutoIsolate.
Proof.
  intros H. rewrite <- classify_lower. unfold classify. rewrite H. reflexivity.
Qed.

Lemma classify_confirm (confidence : string) :
  should_auto_isolate (PyStr.lower confidence) = false ->
  requires_confirmation (PyStr.lower confidence) = true ->
  classify confidence = RequireConfirmation.
Proof.
  intros H1 H2. rewrite <- classify_lower. unfold classify. rewrite H1, H2. reflexivity.
Qed.

(** What a check tells about the store, which it leaves as it is. *)
Lemma check_summary (keys : Keys) (now : Z) (user : string) (w : World) :
  exists rr,
    check_isolation_rate_limits keys now user w = (rr, w) /\
    (forall a, rr = Ok a -> allowed a = true -> within_limits now user w) /\
    (forall a, rr = Ok a -> allowed a = false -> is_Some (lock_file w)).
Proof.
  destruct (lock_file w) as [l|] eqn:El.
  - exists (Ok locked_result). split; [|split].
    + apply locked_check_denies. rewrite El. eauto.
    + intros a [= <-] H. discriminate H.
    + intros a _ _. eauto.
  - set (c5 := successes_since (now - 5 * usec_per_minute) (actor_filter (Some user))
                 (isolation_events w)).
    set (c1 := successes_since (now - 1 * usec_per_hour) (actor_filter (Some user))
                 (isolation_events w)).
    set (c24 := successes_since (now - 24 * usec_per_hour) (actor_filter (Some user))
                  (isolation_events w)).
    assert (H5 : count_isolations_in_window now None (Some 5%Z) (Some user) w = (Ok c5, w))
      by (rewrite count_unfold; reflexivity).
    assert (H1 : count_isolations_in_window now (Some 1%Z) None (Some user) w = (Ok c1, w))
      by (rewrite count_unfold; reflexivity).
    assert (H24 : count_isolations_in_window now (Some 24%Z) None (Some user) w
                  = (Ok c24, w))
      by (rewrite count_unfold; reflexivity).
    rewrite (unlocked_check_outcome keys now user w c5 c1 c24 El H5 H1 H24).
    eexists. split; [reflexivity|].
    destruct (5 <=? c5)%Z eqn:E5;
      [split; intros a Ha; discriminate Ha|].
    destruct (10 <? c1)%Z eqn:E1;
      [split; intros a Ha; discriminate Ha|].
    destruct (15 <? c24)%Z eqn:E24;
      [split; intros a Ha; discriminate Ha|].
    apply Z.leb_gt in E5. apply Z.ltb_ge in E1. apply Z.ltb_ge in E24.
    split; intros a Ha Hall.
    + unfold within_limits. fold c5 c1 c24. auto.
    + injection Ha as <-. discriminate Hall.
Qed.

(** The check reads the lock file and the isolation table only. *)
Lemma check_reads_lock_and_table (keys : Keys) (now : Z) (user : string)
    (w1 w2 : World) :
  lock_file w1 = lock_file w2 ->
  isolation_events w1 = isolation_events w2 ->
  fst (check_isolation_rate_limits keys now user w1)
  = fst (check_isolation_rate_limits keys now user w2).
Proof.
  intros Hl He.
  destruct (lock_file w2) as [l|] eqn:El.
  - rewrite !locked_check_denies; [reflexivity | rewrite El; eauto | rewrite Hl; eauto].
  - set (c5 := successes_since (now - 5 * usec_per_minute) (actor_filter (Some user))
                 (isolation_events w2)).
    set (c1 := successes_since (now - 1 * usec_per_hour) (actor_filter (Some user))
                 (isolation_events w2)).
    set (c24 := successes_since (now - 24 * usec_per_hour) (actor_filter (Some user))
                  (isolation_events w2)).
    assert (H5 : forall w, isolation_events w = isolation_events w2 ->
              count_isolations_in_window now None (Some 5%Z) (Some user) w = (Ok c5, w))
      by (intros w Hw; rewrite count_unfold; cbn; rewrite Hw; reflexivity).
    assert (H1 : forall w, isolation_events w = isolation_events w2 ->
              count_isolations_in_window now (Some 1%Z) None (Some user) w = (Ok c1, w))
      by (intros w Hw; rewrite count_unfold; cbn; rewrite Hw; reflexivity).
    assert (H24 : forall w, isolation_events w = isolation_events w2 ->
              count_isolations_in_window now (Some 24%Z) None (Some user) w = (Ok c24, w))
      by (intros w Hw; rewrite count_unfold; cbn; rewrite Hw; reflexivity).
    rewrite (unlocked_check_outcome keys now user w1 c5 c1 c24 Hl
               (H5 _ He) (H1 _ He) (H24 _ He)).
    rewrite (unlocked_check_outcome keys now user w2 c5 c1 c24 El
               (H5 _ eq_refl) (H1 _ eq_refl) (H24 _ eq_refl)).
    reflexivity.
Qed.

(** X22. Audit records do not move the limits: after [log_law_query] or
    [log_user_decision] has added its one row to the audit log, every window
    count and the rate-limit check give what they gave before, for every
    actor and clock. *)
Theorem audit_records_leave_limits (keys : Keys) (now now' : Z) (user : string)
    (table_name title decision confidence : string) (device_name : option string)
    (record_count time_range_hours : Z) (success : bool) (w : World) :
  let logged :=
    [snd (log_law_query now table_name device_name record_count time_range_hours
            success w);
     snd (log_user_decision now device_name title decision confidence w)] in
  Forall (fun w' =>
            length (audit_log w') = S (length (audit_log w)) /\
            fst (check_isolation_rate_limits keys now' user w')
            = fst (check_isolation_rate_limits keys now' user w) /\
            forall hours minutes actor,
              fst (count_isolations_in_window now' hours minutes actor w')
              = fst (count_isolations_in_window now' hours minutes actor w)) logged.
Proof.
  cbv zeta. unfold log_law_query, log_user_decision, log_action. cbn [snd].
  repeat constructor; cbn [audit_log];
    try (rewrite length_app; cbn; lia);
    try (apply check_reads_lock_and_table; reflexivity);
    try (intros hours minutes actor; rewrite !count_unfold;
         destruct (window_delta hours minutes); reflexivity).
Qed.

Section LoopStore.

Variable keys : Keys.
Variable oracle : Oracle.
Variable query_context : QueryContext.
Variable hunt_id : string.
Variable mass_isolation_approved : bool.

Ltac run_cases :=
  repeat match goal with
    | H : (_, _) = (_, _) |- _ => inversion H; subst; clear H
    | H : context [match ?x with _ => _ end] |- _ => destruct x eqn:?
    end.

Ltac in_list H :=
  repeat (destruct H as [H|H]; [try discriminate H; try (inversion H; subst) |]);
  try contradiction.

Lemma process_threat_store (i : nat) (threat : Threat) (s s' : LoopState)
    (r : result Control) :
  process_threat keys oracle query_context hunt_id mass_isolation_approved i threat s
    = (r, s') ->
  exists evs rows,
    trace s' = (trace s ++ evs)%list /\
    isolation_events (world s') = (isolation_events (world s) ++ rows)%list /\
    lock_file (world s') = lock_file (world s) /\
    audit_log (world s') = audit_log (world s) /\
    lock_writable (world s') = lock_writable (world s) /\
    map ie_action_result rows = attempt_results evs /\
    Forall (fun row => ie_user row = "cli_user" /\
                       ie_device_name row = qc_device_name query_context /\
                       ie_threat_id row = hunt_id /\
                       ie_timestamp row = clock_at oracle i) rows /\
    ~ In (DeclineLogged i) evs /\
    (forall e, In e evs ->
       is_isolation_attempt e = true \/ e = ConfirmationPrompt i ->
       within_limits (clock_at oracle i) "cli_user" (world s) /\
       machine_is_isolated s = false /\
       about_individual_host query_context || mass_isolation_approved = true) /\
    (forall d b, In (IsolationAttempt i d b) evs ->
       truthy_opt (machine_id_at oracle i) = true /\
       b = quarantine_success_at oracle i /\
       exists c, t_confidence threat = Some c /\
         (classify c = AutoIsolate /\ ~ In (ConfirmationPrompt i) evs \/
          classify c = RequireConfirmation /\ In (ConfirmationPrompt i) evs /\
          PyStr.startswith "y" (PyStr.lower (PyStr.strip (input_at oracle i))) = true)) /\
    (about_individual_host query_context || mass_isolation_approved = false ->
       rows = [] /\ Forall (fun e => e = NotImplemented i) evs).
Proof.
  unfold process_threat.
  pose proof (check_summary keys (clock_at oracle i) "cli_user" (world s)) as Hcheck.
  revert Hcheck.
  generalize (check_isolation_rate_limits keys (clock_at oracle i) "cli_user").
  intros check (rr & Hcheck & Hwl & _) H.
  unfold isolate_and_log, mbind, ST_bind, mret, ST_ret, emit, in_world, lift,
    get_machine_is_isolated, set_machine_is_isolated, log_isolation_event,
    log_user_decision, log_action in H.
  cbn in H. rewrite ?Hcheck in H. run_cases.
  all: try (rewrite Hcheck in *; run_cases).
  all: cbn [trace world machine_is_isolated isolation_events lock_file audit_log
              lock_writable] in *.
  all: repeat match goal with
         | H : negb (allowed ?a) = _ |- _ =>
             destruct (allowed a) eqn:?; cbn in H; try discriminate H; clear H
         | H : item ?o = Ok _ |- _ =>
             destruct o eqn:?; cbn in H; [injection H as -> | discriminate H]
         end.
  all: repeat rewrite <- app_assoc.
  all: do 2 eexists.
  all: split; [first [reflexivity | symmetry; apply app_nil_r]|].
  all: split; [first [reflexivity | symmetry; apply app_nil_r]|].
  all: cbn.
  all: split; [reflexivity|]; split; [reflexivity|]; split; [reflexivity|];
    split; [reflexivity|].
  all: split; [repeat constructor|].
  all: split; [intros Hin; in_list Hin|].
  all: split;
    [intros ev Hin Hkind; in_list Hin;
     (destruct Hkind as [Hkind|Hkind]; try discriminate Hkind);
     (split; [eapply Hwl; eauto | split; first [assumption | reflexivity]])|].
  all: split;
    [intros d b Hin; in_list Hin;
     (split; [first [assumption | reflexivity]|]); (split; [congruence|]);
     eexists; (split; [reflexivity|]);
     first [ left; split; [apply classify_auto; assumption | intros Hp; in_list Hp]
           | right; split; [apply classify_confirm; assumption
                           | split; [right; left; reflexivity | first [assumption | reflexivity]]] ]
    | intros Hhost; first [congruence | split; [reflexivity | repeat constructor]] ].
Qed.

Lemma failed_attempts_only (evs : list Event) :
  successful_isolations evs = 0 ->
  Forall (fun res => res = "failed") (attempt_results evs).
Proof.
  induction evs as [|e evs IH]; cbn; [constructor|].
  destruct e as [| | |j d [] | | | |]; cbn; intros H; try (apply IH; lia).
  - lia.
  - constructor; [reflexivity | apply IH; lia].
Qed.

Lemma attempt_results_app (l1 l2 : list Event) :
  attempt_results (l1 ++ l2) = (attempt_results l1 ++ attempt_results l2)%list.
Proof.
  induction l1 as [|e l1 IH]; [reflexivity|].
  destruct e; cbn; rewrite ?IH; reflexivity.
Qed.

Lemma no_attempt_no_result (evs : list Event) :
  (forall e, In e evs -> is_isolation_attempt e = false) ->
  attempt_results evs = [].
Proof.
  induction evs as [|e evs IH]; intros H; [reflexivity|].
  pose proof (H e (or_introl eq_refl)) as He.
  destruct e; cbn in *; try discriminate He; apply IH; intros e' He'; apply H; auto.
Qed.

Lemma unsuccessful_rows_not_counted (cutoff : Z) (user : option string)
    (rows : list IsolationEvent) :
  Forall (fun res => res = "failed") (map ie_action_result rows) ->
  successes_since cutoff user rows = 0%Z.
Proof.
  induction rows as [|row rows IH]; intros H; [reflexivity|].
  cbn in H. inversion H as [|? ? Hrow Hrest]; subst.
  rewrite successes_since_cons, (IH Hrest). unfold in_window. rewrite Hrow.
  cbn. rewrite andb_false_r. reflexivity.
Qed.

Lemma within_limits_frame (now : Z) (user : string) (w w0 : World)
    (rows : list IsolationEvent) :
  lock_file w = lock_file w0 ->
  isolation_events w = (isolation_events w0 ++ rows)%list ->
  Forall (fun res => res = "failed") (map ie_action_result rows) ->
  within_limits now user w -> within_limits now user w0.
Proof.
  unfold within_limits. intros Hl He Hrows. rewrite Hl, He.
  rewrite !successes_since_app, !(unsuccessful_rows_not_counted _ _ rows Hrows).
  rewrite !Z.add_0_r. auto.
Qed.

Abbreviation invariant :=
  (store_invariant oracle query_context hunt_id mass_isolation_approved).

Lemma store_invariant_step (threats : list Threat) (w0 : World) (k : nat)
    (threat : Threat) (s s' : LoopState) (r : result Control) :
  threats !! k = Some threat ->
  Forall (fun e => event_index e < k) (trace s) ->
  process_threat keys oracle query_context hunt_id mass_isolation_approved k threat s
    = (r, s') ->
  invariant threats w0 s ->
  invariant threats w0 s' /\ Forall (fun e => event_index e < S k) (trace s').
Proof.
  intros Hk Hidx Hstep
         (Hlock & Haudit & Hwr & (rows0 & Hrows0 & Hres0 & Hprops0) & Hflag & Hdecl
          & Hlim & Hpol & Hhost).
  destruct (process_threat_store _ _ _ _ _ Hstep)
    as (evs & rows & Htr & Hev & Hl & Ha & Hw & Hres & Hprops & Hnd & Hwl & Hp & Hnh).
  destruct (process_threat_facts _ _ _ _ _ _ _ _ _ _ Hstep)
    as (evs' & Htr' & Hi & _ & _ & Hle & Hnone & Hnew & _).
  assert (evs' = evs) as -> by (rewrite Htr in Htr'; apply app_inv_head in Htr'; auto).
  rewrite Forall_forall in Hi.
  assert (Hidx' : Forall (fun e => event_index e < S k) (trace s')).
  { rewrite Htr. apply Forall_app. split.
    - eapply Forall_impl; [exact Hidx|]. cbn. intros e He. lia.
    - apply Forall_forall. intros e He. rewrite (Hi e He). lia. }
  split; [|exact Hidx'].
  assert (Hold : forall e, In e (trace s) -> event_index e <> k).
  { intros e He. rewrite Forall_forall in Hidx.
    specialize (Hidx e (proj2 (list_elem_of_In _ _) He)). lia. }
  assert (Hin : forall e, In e evs -> event_index e = k).
  { intros e He. apply Hi, list_elem_of_In, He. }
  unfold store_invariant. rewrite Htr.
  split; [congruence|]. split; [congruence|]. split; [congruence|].
  split.
  { exists (rows0 ++ rows)%list. split; [|split].
    - rewrite Hev, Hrows0, app_assoc. reflexivity.
    - rewrite map_app, attempt_results_app, Hres0, Hres. reflexivity.
    - apply Forall_app. split; [exact Hprops0|].
      eapply Forall_impl; [exact Hprops|]. cbn. intros row (H1 & H2 & H3 & _). auto. }
  split.
  { intros Hf. rewrite successful_isolations_app. rewrite Hnew in Hf.
    destruct (Nat.eqb_spec (successful_isolations evs) 1) as [E|E]; [discriminate Hf|].
    rewrite (Hflag Hf). lia. }
  split.
  { intros j Hj. apply in_app_iff in Hj as [Hj|Hj]; [exact (Hdecl j Hj)|].
    pose proof (Hin _ Hj) as Hjk. cbn in Hjk. subst j. exact (Hnd Hj). }
  split.
  { intros e He Hkind. apply in_app_iff in He as [He|He]; [exact (Hlim e He Hkind)|].
    rewrite (Hin e He) in *.
    destruct (Hwl e He Hkind) as (Hwin & Hf & Hh).
    split; [|exact Hh].
    apply (within_limits_frame _ _ (world s) w0 rows0); try assumption.
    rewrite Hres0. apply failed_attempts_only, Hflag, Hf. }
  split.
  { intros j d b Hj. apply in_app_iff in Hj as [Hj|Hj].
    - destruct (Hpol j d b Hj) as (H1 & H2 & t & c & Ht & Hc & Hcases).
      split; [exact H1|]. split; [exact H2|]. exists t, c.
      split; [exact Ht|]. split; [exact Hc|].
      destruct Hcases as [[Hauto Hnp]|(Hreq & Hpr & Hy)].
      + left. split; [exact Hauto|]. intros Hpr.
        apply in_app_iff in Hpr as [Hpr|Hpr]; [exact (Hnp Hpr)|].
        pose proof (Hin _ Hpr) as Hjk. cbn in Hjk. subst j.
        exact (Hold _ Hj eq_refl).
      + right. split; [exact Hreq|]. split; [|exact Hy].
        apply in_app_iff. left. exact Hpr.
    - pose proof (Hin _ Hj) as Hjk. cbn in Hjk. subst j.
      destruct (Hp d b Hj) as (H1 & H2 & c & Hc & Hcases).
      split; [exact H1|]. split; [exact H2|]. exists threat, c.
      split; [exact Hk|]. split; [exact Hc|].
      destruct Hcases as [[Hauto Hnp]|(Hreq & Hpr & Hy)].
      + left. split; [exact Hauto|]. intros Hp'.
        apply in_app_iff in Hp' as [Hp'|Hp']; [|exact (Hnp Hp')].
        exact (Hold _ Hp' eq_refl).
      + right. split; [exact Hreq|]. split; [|exact Hy].
        apply in_app_iff. right. exact Hpr. }
  intros Hh. apply Forall_app. split; [exact (Hhost Hh)|].
  destruct (Hnh Hh) as [_ Hni].
  rewrite Forall_forall in Hni |- *. intros e He.
  rewrite (Hni e He). reflexivity.
Qed.

Lemma store_invariant_run (threats : list Threat) (w0 : World) :
  forall (rest : list Threat) (k : nat) (s : LoopState),
    (forall j t, rest !! j = Some t -> threats !! (k + j) = Some t) ->
    Forall (fun e => event_index e < k) (trace s) ->
    invariant threats w0 s ->
    invariant threats w0
      (snd (run_loop keys oracle query_context hunt_id mass_isolation_approved k rest s)).
Proof.
  induction rest as [|t rest IH]; intros k s Hsub Hidx Hinv; [exact Hinv|].
  cbn [run_loop]. unfold mbind, ST_bind.
  destruct (process_threat _ _ _ _ _ k t s) as [r1 s1] eqn:Hstep.
  assert (Hk : threats !! k = Some t).
  { rewrite <- (Nat.add_0_r k). apply Hsub. reflexivity. }
  destruct (store_invariant_step threats w0 k t s s1 r1 Hk Hidx Hstep Hinv)
    as [Hinv1 Hidx1].
  destruct r1 as [[|]|e]; try exact Hinv1.
  apply IH; try assumption.
  intros j t' Hj. replace (S k + j) with (k + S j) by lia. apply Hsub. exact Hj.
Qed.

Lemma store_invariant_response (threats : list Threat) (w : World) :
  invariant threats w
    (snd (response_loop keys oracle query_context hunt_id mass_isolation_approved
            threats w)).
Proof.
  unfold response_loop. apply store_invariant_run.
  - intros j t Hj. exact Hj.
  - constructor.
  - unfold store_invariant; cbn.
    split; [reflexivity|]. split; [reflexivity|]. split; [reflexivity|].
    split.
    { exists []. rewrite app_nil_r. split; [reflexivity|]. split; [reflexivity|].
      constructor. }
    split; [reflexivity|]. split; [intros j Hj; exact Hj|].
    split; [intros e He; contradiction|].
    split; [intros j d b Hj; contradiction|].
    intros _. constructor.
Qed.

Abbreviation respond :=
  (response_loop keys oracle query_context hunt_id mass_isolation_approved).

Lemma world_eq (w1 w2 : World) :
  lock_file w1 = lock_file w2 -> lock_writable w1 = lock_writable w2 ->
  audit_log w1 = audit_log w2 -> isolation_events w1 = isolation_events w2 ->
  w1 = w2.
Proof. destruct w1, w2; cbn; intros; subst; reflexivity. Qed.

(** X14. Whatever the batch, the collaborators and the way the loop ends
    (exhausted, broken off or raised), the loop changes the store only by
    appending rows to [isolation_events]: one row per quarantine call, in
    order, with [action_result] "success" or "failed" as the call went, the
    actor "cli_user", the device of the query and the id of the hunt. The
    lock file and the audit log are as before the loop; in particular no
    declined confirmation is ever logged. *)
Theorem loop_logs_every_attempt (threats : list Threat) (w : World) :
  let s := snd (respond threats w) in
  lock_file (world s) = lock_file w /\
  audit_log (world s) = audit_log w /\
  (forall j, ~ In (DeclineLogged j) (trace s)) /\
  exists rows,
    isolation_events (world s) = (isolation_events w ++ rows)%list /\
    map ie_action_result rows = attempt_results (trace s) /\
    Forall (fun row => ie_user row = "cli_user" /\
                       ie_device_name row = qc_device_name query_context /\
                       ie_threat_id row = hunt_id) rows.
Proof.
  cbv zeta.
  destruct (store_invariant_response threats w)
    as (Hl & Ha & _ & Hrows & _ & Hd & _).
  auto.
Qed.

Lemma attempts_need_limits (threats : list Threat) (w : World) :
  forall j,
    (exists d b, In (IsolationAttempt j d b) (trace (snd (respond threats w))))
    \/ In (ConfirmationPrompt j) (trace (snd (respond threats w))) ->
    within_limits (clock_at oracle j) "cli_user" w /\
    about_individual_host query_context || mass_isolation_approved = true.
Proof.
  intros j Hj.
  destruct (store_invariant_response threats w)
    as (_ & _ & _ & _ & _ & _ & Hlim & _).
  destruct Hj as [(d & b & Hj)|Hj].
  - apply (Hlim _ Hj). left. reflexivity.
  - apply (Hlim _ Hj). right. reflexivity.
Qed.

(** X15. A quarantine call or a confirmation prompt for the threat at
    position [j] happens only if, at the clock of that threat, the store the
    loop started from has no lock and holds fewer than 5 successes of
    "cli_user" in 5 minutes, at most 10 in the hour and at most 15 in 24
    hours; and only for a query about a single host (or an approved mass
    isolation). *)
Theorem isolation_only_within_limits (threats : list Threat) (w : World) :
  let s := snd (respond threats w) in
  forall j,
    (exists d b, In (IsolationAttempt j d b) (trace s)) \/ In (ConfirmationPrompt j) (trace s) ->
    within_limits (clock_at oracle j) "cli_user" w /\
    about_individual_host query_context || mass_isolation_approved = true.
Proof.
  cbv zeta. exact (attempts_need_limits threats w).
Qed.

(** X16. While the lock is engaged the loop is inert for every batch: no
    quarantine call, no confirmation prompt, and the store after the loop is
    the store before it. *)
Theorem locked_loop_is_inert (threats : list Threat) (w : World) :
  is_Some (lock_file w) ->
  let s := snd (respond threats w) in
  world s = w /\
  (forall j d b, ~ In (IsolationAttempt j d b) (trace s)) /\
  (forall j, ~ In (ConfirmationPrompt j) (trace s)).
Proof.
  intros Hlocked. cbv zeta.
  pose proof (attempts_need_limits threats w) as Hlim.
  assert (Hno : forall j d b,
            ~ In (IsolationAttempt j d b) (trace (snd (respond threats w)))).
  { intros j d b Hj.
    destruct (Hlim j (or_introl (ex_intro _ d (ex_intro _ b Hj)))) as [[Hnone _] _].
    rewrite Hnone in Hlocked. destruct Hlocked as [? Habs]. discriminate Habs. }
  split; [|split; [exact Hno|]].
  - destruct (store_invariant_response threats w)
      as (Hl & Ha & Hw & (rows & Hrows & Hres & _) & _).
    apply world_eq; try assumption.
    rewrite no_attempt_no_result in Hres.
    + apply map_eq_nil in Hres. subst rows. rewrite Hrows, app_nil_r. reflexivity.
    + intros e He. destruct e; try reflexivity. exfalso. exact (Hno _ _ _ He).
  - intros j Hj.
    destruct (Hlim j (or_intror Hj)) as [[Hnone _] _].
    rewrite Hnone in Hlocked. destruct Hlocked as [? Habs]. discriminate Habs.
Qed.


(** X18. For a query that is not about a single host, with no approved
    mass isolation, the loop touches nothing: the store is unchanged and the
    only events are the "not yet implemented" notices of the user and NSG
    branches. *)
Theorem non_host_query_is_inert (threats : list Threat) (w : World) :
  about_individual_host query_context = false ->
  mass_isolation_approved = false ->
  let s := snd (respond threats w) in
  world s = w /\
  Forall (fun e => e = NotImplemented (event_index e)) (trace s).
Proof.
  intros Hhost Hmass. cbv zeta.
  destruct (store_invariant_response threats w)
    as (Hl & Ha & Hw & (rows & Hrows & Hres & _) & _ & _ & _ & _ & Hni).
  assert (Hh : about_individual_host query_context || mass_isolation_approved = false)
    by (rewrite Hhost, Hmass; reflexivity).
  specialize (Hni Hh). split; [|exact Hni].
  apply world_eq; try assumption.
  rewrite no_attempt_no_result in Hres.
  - apply map_eq_nil in Hres. subst rows. rewrite Hrows, app_nil_r. reflexivity.
  - intros e He. rewrite Forall_forall in Hni.
    rewrite (Hni e (proj2 (list_elem_of_In _ _) He)). reflexivity.
Qed.

Lemma check_allows (now : Z) (user : string) (w : World) :
  within_limits now user w ->
  exists count_5min,
    check_isolation_rate_limits keys now user w = (Ok (within_limits_result count_5min), w).
Proof.
  intros (Hl & H5 & H1 & H24).
  set (c5 := successes_since (now - 5 * usec_per_minute) (actor_filter (Some user))
               (isolation_events w)) in *.
  set (c1 := successes_since (now - 1 * usec_per_hour) (actor_filter (Some user))
               (isolation_events w)) in *.
  set (c24 := successes_since (now - 24 * usec_per_hour) (actor_filter (Some user))
                (isolation_events w)) in *.
  assert (E5 : count_isolations_in_window now None (Some 5%Z) (Some user) w = (Ok c5, w))
    by (rewrite count_unfold; reflexivity).
  assert (E1 : count_isolations_in_window now (Some 1%Z) None (Some user) w = (Ok c1, w))
    by (rewrite count_unfold; reflexivity).
  assert (E24 : count_isolations_in_window now (Some 24%Z) None (Some user) w
                = (Ok c24, w))
    by (rewrite count_unfold; reflexivity).
  exists c5.
  rewrite (unlocked_check_outcome keys now user w c5 c1 c24 Hl E5 E1 E24).
  destruct (5 <=? c5)%Z eqn:L5; [apply Z.leb_le in L5; lia|].
  destruct (10 <? c1)%Z eqn:L1; [apply Z.ltb_lt in L1; lia|].
  destruct (15 <? c24)%Z eqn:L24; [apply Z.ltb_lt in L24; lia|].
  reflexivity.
Qed.

(** An iteration that ends without an exception was about a threat with a
    confidence, and showed a prompt only if the answer was a yes. *)
Lemma process_threat_completes (i : nat) (threat : Threat) (s s' : LoopState)
    (c : Control) :
  process_threat keys oracle query_context hunt_id mass_isolation_approved i threat s
    = (Ok c, s') ->
  is_Some (t_confidence threat) /\
  forall j, In (ConfirmationPrompt j) (trace s') ->
            In (ConfirmationPrompt j) (trace s) \/ answers_yes oracle j = true.
Proof.
  unfold process_threat, answers_yes.
  generalize (check_isolation_rate_limits keys (clock_at oracle i) "cli_user").
  intros check H.
  unfold isolate_and_log, mbind, ST_bind, mret, ST_ret, emit, in_world, lift,
    get_machine_is_isolated, set_machine_is_isolated, log_isolation_event,
    log_user_decision, log_action in H.
  cbn in H. run_cases.
  all: cbn [trace world machine_is_isolated] in *.
  all: repeat match goal with
         | H : item ?o = Ok _ |- _ =>
             destruct o eqn:?; cbn in H; [injection H as -> | discriminate H]
         end.
  all: split; [eauto|].
  all: intros j Hin; rewrite ?in_app_iff in Hin; cbn [In] in Hin.
  all: repeat match goal with
         | H : _ \/ _ |- _ => destruct H as [H|H]
         end;
       try contradiction; try discriminate;
       try (left; assumption);
       try (match goal with
            | H : ConfirmationPrompt _ = ConfirmationPrompt _ |- _ =>
                injection H as <-; right; assumption
            end).
Qed.

Lemma run_loop_completes (threats : list Threat) :
  forall (k : nat) (s s' : LoopState),
    run_loop keys oracle query_context hunt_id mass_isolation_approved k threats s
      = (Ok tt, s') ->
    forall j, In (ConfirmationPrompt j) (trace s') ->
              In (ConfirmationPrompt j) (trace s) \/ answers_yes oracle j = true.
Proof.
  induction threats as [|t rest IH]; intros k s s' H j Hj.
  - inversion H; subst. left. exact Hj.
  - cbn [run_loop] in H. unfold mbind, ST_bind in H.
    destruct (process_threat _ _ _ _ _ k t s) as [r1 s1] eqn:Hstep.
    destruct r1 as [[|]|e]; [| |discriminate H].
    + destruct (IH _ _ _ H j Hj) as [Hin|Hyes]; [|right; exact Hyes].
      exact (proj2 (process_threat_completes _ _ _ _ _ Hstep) j Hin).
    + inversion H; subst.
      exact (proj2 (process_threat_completes _ _ _ _ _ Hstep) j Hj).
Qed.

(** X19. A run of the loop that ends without an exception has met no
    decline: every confirmation prompt it showed was answered with a yes.
    (A declined prompt raises from the alert call and ends the whole run,
    whatever threats follow.) *)
Theorem completed_run_met_no_decline (threats : list Threat) (w : World) :
  fst (respond threats w) = Ok tt ->
  forall j, In (ConfirmationPrompt j) (trace (snd (respond threats w))) ->
            answers_yes oracle j = true.
Proof.
  intros Hok j Hj. unfold response_loop in *.
  destruct (run_loop _ _ _ _ _ 0 threats _) as [r s'] eqn:Hrun.
  cbn in Hok, Hj. subst r.
  destruct (run_loop_completes _ _ _ _ Hrun j Hj) as [Hin|Hyes]; [|exact Hyes].
  contradiction.
Qed.

(** X20. When the first threat the loop handles is one the policy wants
    confirmed (confidence high or medium, up to letter case), the limits allow
    and the analyst's answer is not a yes, the run ends there with the
    [TypeError] of the alert call: the prompt is the last event, no later
    threat is looked at, the decision is not logged and the store is as it
    was. *)
Theorem declined_confirmation_aborts_run (t : Threat) (rest : list Threat)
    (w : World) (c title : string) :
  about_individual_host query_context || mass_isolation_approved = true ->
  within_limits (clock_at oracle 0) "cli_user" w ->
  t_confidence t = Some c ->
  classify c = RequireConfirmation ->
  t_title t = Some title ->
  answers_yes oracle 0 = false ->
  respond (t :: rest) w =
    (Raise TypeError,
     {| world := w; machine_is_isolated := false;
        trace := [RateLimitCheck 0 true; ConfirmationPrompt 0] |}).
Proof.
  intros Hhost Hlim Hc Hcl Ht Hno.
  destruct (check_allows _ _ _ Hlim) as (c5 & Hcheck).
  rewrite <- classify_lower in Hcl. unfold classify in Hcl.
  destruct (should_auto_isolate (PyStr.lower c)) eqn:Hauto; [discriminate Hcl|].
  destruct (requires_confirmation (PyStr.lower c)) eqn:Hask; [|discriminate Hcl].
  unfold answers_yes in Hno.
  unfold response_loop. cbn [run_loop]. unfold process_threat.
  unfold mbind, ST_bind, mret, ST_ret, emit, in_world, lift,
    get_machine_is_isolated.
  rewrite Hc, Ht, Hhost. cbn. rewrite Hcheck. cbn.
  rewrite Hauto, Hask. cbn. rewrite Hno. reflexivity.
Qed.

(** X21. The loop reads [threat["confidence"]] before it looks at the kind
    of the query: a first finding without that key ends the run with
    [KeyError] before any check, prompt or quarantine, for host, user and NSG
    queries alike. *)
Theorem missing_confidence_raises (t : Threat) (rest : list Threat) (w : World) :
  t_confidence t = None ->
  respond (t :: rest) w = (Raise KeyError, loop_start w).
Proof.
  intros Hc. unfold response_loop, loop_start. cbn [run_loop]. unfold process_threat.
  unfold mbind, ST_bind, lift. rewrite Hc. reflexivity.
Qed.

End LoopStore.

Lemma locked_loop_is_inert_witness :
  let s := snd (response_loop sample_keys sample_oracle sample_query "hunt-1" false
                  sample_batch sample_locked_world) in
  world s = sample_locked_world /\
  (forall j d b, ~ In (IsolationAttempt j d b) (trace s)) /\
  (forall j, ~ In (ConfirmationPrompt j) (trace s)).
Proof.
  apply (locked_loop_is_inert sample_keys sample_oracle sample_query "hunt-1" false
           sample_batch sample_locked_world).
  cbn. eauto.
Defined.

Lemma non_host_query_is_inert_witness :
  let s := snd (response_loop sample_keys sample_oracle sample_user_query "hunt-1" false
                  sample_batch (sample_world 2 1000 "cli_user")) in
  world s = sample_world 2 1000 "cli_user" /\
  Forall (fun e => e = NotImplemented (event_index e)) (trace s).
Proof.
  apply (non_host_query_is_inert sample_keys sample_oracle sample_user_query "hunt-1"
           false sample_batch (sample_world 2 1000 "cli_user")); reflexivity.
Defined.

Lemma completed_run_met_no_decline_witness :
  answers_yes sample_oracle 1 = true.
Proof.
  apply (completed_run_met_no_decline sample_keys sample_oracle sample_query "hunt-1"
           false [sample_threat "low" "host-a"; sample_threat "High" "host-a"]
           (sample_world 2 1000 "cli_user")).
  - vm_compute. reflexivity.
  - vm_compute. repeat (first [left; reflexivity | right]).
Defined.

Lemma isolation_only_within_limits_witness :
  within_limits (clock_at sample_oracle 0) "cli_user" (sample_world 2 1000 "cli_user") /\
  about_individual_host sample_query || false = true.
Proof.
  apply (isolation_only_within_limits sample_keys sample_oracle sample_query "hunt-1"
           false sample_batch (sample_world 2 1000 "cli_user") 0).
  left. exists (Some "host-a"), true.
  vm_compute. repeat (first [left; reflexivity | right]).
Defined.


Lemma declined_confirmation_aborts_run_witness :
  response_loop sample_keys sample_declining_oracle sample_query "hunt-1" false
    [sample_threat "High" "host-a"; sample_threat "critical" "host-a"]
    (sample_world 2 1000 "cli_user")
  = (Raise TypeError,
     {| world := sample_world 2 1000 "cli_user"; machine_is_isolated := false;
        trace := [RateLimitCheck 0 true; ConfirmationPrompt 0] |}).
Proof.
  apply (declined_confirmation_aborts_run sample_keys sample_declining_oracle
           sample_query "hunt-1" false
           (sample_threat "High" "host-a") [sample_threat "critical" "host-a"]
           (sample_world 2 1000 "cli_user") "High" "Suspicious PowerShell Activity").
  - reflexivity.
  - unfold within_limits. vm_compute. repeat split; discriminate.
  - reflexivity.
  - vm_compute. reflexivity.
  - reflexivity.
  - vm_compute. reflexivity.
Defined.

Lemma missing_confidence_raises_witness :
  response_loop sample_keys sample_oracle sample_user_query "hunt-1" false
    [sample_unrated_threat; sample_threat "critical" "host-a"]
    (sample_world 2 1000 "cli_user")
  = (Raise KeyError, loop_start (sample_world 2 1000 "cli_user")).
Proof.
  apply (missing_confidence_raises sample_keys sample_oracle sample_user_query "hunt-1"
           false sample_unrated_threat [sample_threat "critical" "host-a"]
           (sample_world 2 1000 "cli_user")).
  reflexivity.
Defined.
